(** * ai-analysis: the keyword-based context retriever and its siblings

    A shallow embedding of the first-party logic of the spreadsheet
    assistant:

    - [ChatInterface.findRelevantContent]  (src/components/ChatInterface.tsx)
    - [AzureSearch.extractKeywords]        (src/lib/azure-search.ts)
    - [AzureLanguage.getMockKeyPhrases] and [AzureLanguage.extractKeyPhrases]
                                           (src/lib/azure-language.ts)
    - the batch loop of [KeyPhraseExtraction.processSheets]
                                           (src/components/KeyPhraseExtraction.tsx)
    - [AzureOpenAI.generateCompletion]     (src/lib/azure-openai.ts)
    - [ChatInterfaceSend.handleSendMessage] (src/components/ChatInterface.tsx)
    - [AzureSearchService.searchDocuments], [fallbackSearch] and
      [getMockSearchResults]               (src/lib/azure-search.ts)
    - the label of [getMockSentimentAnalysis] (src/lib/azure-language.ts)

    Strings are JavaScript strings whose UTF-16 code units lie in the Latin-1
    range 0..255: one [ascii] is one code unit.  On that range the case maps,
    the regular-expression classes [\w] and [\s] and the escaping done by
    [JSON.stringify] are modelled exactly. *)

From Stdlib Require Import List Bool Arith Lia String Ascii.
From Stdlib Require Import Numbers.DecimalString Numbers.DecimalNat.
From Stdlib Require Import Sorting.Sorted Sorting.Permutation.
Import ListNotations.
Local Open Scope list_scope.
Local Open Scope string_scope.
Local Open Scope nat_scope.

(** ** The JavaScript primitives used by the code *)

Module JS.

Definition code (c : ascii) : nat := nat_of_ascii c.

Definition between (lo hi n : nat) : bool := (lo <=? n) && (n <=? hi).

(** [String.prototype.toLowerCase], one code unit: A-Z, and the Latin-1
    capitals U+00C0..U+00DE except the multiplication sign U+00D7. *)
Definition toLowerCaseChar (c : ascii) : ascii :=
  let n := code c in
  if between 65 90 n || (between 192 222 n && negb (n =? 215))
  then ascii_of_nat (n + 32) else c.

Fixpoint toLowerCase (s : string) : string :=
  match s with
  | EmptyString => EmptyString
  | String c r => String (toLowerCaseChar c) (toLowerCase r)
  end.

(** [String.prototype.toUpperCase] of a one-unit string, as the code units
    of the result: it leaves the Latin-1 range for the micro sign and y
    with diaeresis, and yields two units for the sharp s. *)
Definition toUpperCaseUnits (c : ascii) : list nat :=
  let n := code c in
  if between 97 122 n then [n - 32]
  else if n =? 181 then [924]
  else if n =? 223 then [83; 83]
  else if between 224 254 n && negb (n =? 247) then [n - 32]
  else if n =? 255 then [376]
  else [n].

(** The class [\w] of a regular expression without flags. *)
Definition isWordChar (c : ascii) : bool :=
  let n := code c in
  between 48 57 n || between 65 90 n || (n =? 95) || between 97 122 n.

(** The class [\s] (white space and line terminators) below U+0100: TAB,
    LF, VT, FF, CR, SPACE and NO-BREAK SPACE. *)
Definition isSpace (c : ascii) : bool :=
  let n := code c in
  between 9 13 n || (n =? 32) || (n =? 160).

(** [s.replace(/[class]/g, r)]: every code unit in the class becomes [r]. *)
Fixpoint replaceAll (cls : ascii -> bool) (r : string) (s : string) : string :=
  match s with
  | EmptyString => EmptyString
  | String c t =>
      if cls c then r ++ replaceAll cls r t else String c (replaceAll cls r t)
  end.

(** [s.split(sep)] for a one-unit separator string. *)
Fixpoint split (sep : ascii) (s : string) : list string :=
  match s with
  | EmptyString => [EmptyString]
  | String c t =>
      if Ascii.eqb c sep then EmptyString :: split sep t
      else match split sep t with
           | w :: ws => String c w :: ws
           | [] => [String c EmptyString]
           end
  end.

(** [s.split(/\s+/)]: the separators are the maximal runs of [\s]. *)
Fixpoint splitWhitespace (s : string) : list string :=
  match s with
  | EmptyString => [EmptyString]
  | String c t =>
      if isSpace c then
        match t with
        | String c' _ =>
            if isSpace c' then splitWhitespace t
            else EmptyString :: splitWhitespace t
        | EmptyString => EmptyString :: splitWhitespace t
        end
      else match splitWhitespace t with
           | w :: ws => String c w :: ws
           | [] => [String c EmptyString]
           end
  end.

Fixpoint startsWith (s k : string) : bool :=
  match k, s with
  | EmptyString, _ => true
  | String _ _, EmptyString => false
  | String a k', String b s' => Ascii.eqb a b && startsWith s' k'
  end.

(** [s.includes(k)]. *)
Fixpoint includes (s k : string) : bool :=
  startsWith s k ||
  match s with
  | EmptyString => false
  | String _ t => includes t k
  end.

(** [arr.includes(x)] on an array of strings. *)
Definition arrayIncludes (arr : list string) (x : string) : bool :=
  existsb (String.eqb x) arr.

(** [arr.join(sep)]. *)
Definition join (sep : string) (arr : list string) : string :=
  String.concat sep arr.

(** [arr.slice(i, j)]. *)
Definition slice {A} (i j : nat) (arr : list A) : list A :=
  firstn (j - i) (skipn i arr).

Fixpoint trimStart (s : string) : string :=
  match s with
  | EmptyString => EmptyString
  | String c t => if isSpace c then trimStart t else s
  end.

Fixpoint trimEnd (s : string) : string :=
  match s with
  | EmptyString => EmptyString
  | String c t =>
      match trimEnd t with
      | EmptyString => if isSpace c then EmptyString else String c EmptyString
      | t' => String c t'
      end
  end.

(** [s.trim()]. *)
Definition trim (s : string) : string := trimEnd (trimStart s).

(** A [Set<string>], kept as its elements in insertion order. *)
Definition SetAdd (set : list string) (x : string) : list string :=
  if arrayIncludes set x then set else (set ++ [x])%list.

(** [new Set(arr)], read back with [Array.from]. *)
Definition SetFrom (arr : list string) : list string :=
  fold_left SetAdd arr [].

(** [arr.forEach((x, i) => ...)] over a local accumulator. *)
Fixpoint forEachFrom {A St} (i : nat) (body : St -> A -> nat -> St)
         (arr : list A) (acc : St) : St :=
  match arr with
  | [] => acc
  | x :: t => forEachFrom (S i) body t (body acc x i)
  end.

Definition forEach {A St} (body : St -> A -> nat -> St) (arr : list A) (acc : St) : St :=
  forEachFrom 0 body arr acc.

(** [arr.map((x, i) => ...)]. *)
Fixpoint mapFrom {A B} (i : nat) (f : A -> nat -> B) (arr : list A) : list B :=
  match arr with
  | [] => []
  | x :: t => f x i :: mapFrom (S i) f t
  end.

Definition mapIndexed {A B} (f : A -> nat -> B) (arr : list A) : list B :=
  mapFrom 0 f arr.

(** The decimal text of a non-negative integer, as a template literal
    prints it. *)
Definition natToString (n : nat) : string :=
  NilZero.string_of_uint (Nat.to_uint n).

(** *** Cell values and [JSON.stringify] *)

(** A cell is a string, a finite number, a boolean or [null].  A number is
    carried by the text [Number::toString] gives it, which is what both the
    template literal and [JSON.stringify] print for a finite number. *)
Inductive Value : Type :=
| VString (s : string)
| VNumber (text : string)
| VBoolean (b : bool)
| VNull.

(** An object is the list of its own enumerable properties, in property
    order: the order of [Object.entries] and of [JSON.stringify]. *)
Definition Obj (A : Type) : Type := list (string * A).

Definition entries {A} (o : Obj A) : list (string * A) := o.
Definition keys {A} (o : Obj A) : list string := map fst o.

(** [`${v}`] and [String(v)]. *)
Definition toString (v : Value) : string :=
  match v with
  | VString s => s
  | VNumber text => text
  | VBoolean true => "true"
  | VBoolean false => "false"
  | VNull => "null"
  end.

Definition hexDigit (n : nat) : ascii :=
  if n <? 10 then ascii_of_nat (48 + n) else ascii_of_nat (87 + n).

(** One code unit inside a JSON string literal (QuoteJSONString). *)
Definition quoteChar (c : ascii) : string :=
  let n := code c in
  if n =? 8 then "\b"
  else if n =? 9 then "\t"
  else if n =? 10 then "\n"
  else if n =? 12 then "\f"
  else if n =? 13 then "\r"
  else if n =? 34 then String "\" (String c EmptyString)
  else if n =? 92 then "\\"
  else if n <? 32 then
    "\u00" ++ String (hexDigit (n / 16)) (String (hexDigit (n mod 16)) EmptyString)
  else String c EmptyString.

Fixpoint quoteBody (s : string) : string :=
  match s with
  | EmptyString => EmptyString
  | String c t => quoteChar c ++ quoteBody t
  end.

Definition dquote : string := String (ascii_of_nat 34) EmptyString.

Definition quote (s : string) : string := dquote ++ quoteBody s ++ dquote.

Definition stringifyValue (v : Value) : string :=
  match v with
  | VString s => quote s
  | VNumber text => text
  | VBoolean true => "true"
  | VBoolean false => "false"
  | VNull => "null"
  end.

(** [JSON.stringify(row)] for a flat record of cells. *)
Definition stringify (row : Obj Value) : string :=
  "{" ++ join "," (map (fun kv => quote (fst kv) ++ ":" ++ stringifyValue (snd kv))
                       (entries row)) ++ "}".

End JS.

Import JS.

(** ** Effects: the console, and exceptions *)

Module Console.

(** One argument of a [console.log] call. *)
Inductive Arg : Type :=
| Text (s : string)
| Strings (arr : list string).

(** One call, and the calls made so far. *)
Definition Entry : Type := list Arg.
Definition Log : Type := list Entry.

End Console.

(** The outcome of running a piece of code: a value, or a thrown error
    (a rejected promise, for [async] code), carried by its message. *)
Inductive Outcome (A : Type) : Type :=
| Returns (a : A)
| Throws (message : string).
Arguments Returns {A} a.
Arguments Throws {A} message.

(** Code with effects on a state [St] that may throw. *)
Definition Eff (St A : Type) : Type := St -> Outcome A * St.

Definition ret {St A} (a : A) : Eff St A := fun st => (Returns a, st).

Definition bind {St A B} (m : Eff St A) (k : A -> Eff St B) : Eff St B :=
  fun st =>
    match m st with
    | (Returns a, st') => k a st'
    | (Throws e, st') => (Throws e, st')
    end.

(** [try { body } catch (error) { handler }]. *)
Definition tryCatch {St A} (body : Eff St A) (handler : string -> Eff St A) : Eff St A :=
  fun st =>
    match body st with
    | (Returns a, st') => (Returns a, st')
    | (Throws e, st') => handler e st'
    end.

Declare Scope eff_scope.
Delimit Scope eff_scope with eff.
Notation "x <- m ;; k" := (bind m (fun x => k))
  (at level 100, m at next level, right associativity) : eff_scope.
Notation "m ;; k" := (bind m (fun _ => k))
  (at level 100, right associativity) : eff_scope.

(** [for (const x of xs) { body }] over a local accumulator. *)
Fixpoint forOf {St A Acc} (body : Acc -> A -> Eff St Acc) (xs : list A) (acc : Acc)
  : Eff St Acc :=
  match xs with
  | [] => ret acc
  | x :: t => bind (body acc x) (forOf body t)
  end.

(** ** src/components/ChatInterface.tsx *)

Module ChatInterface.

Definition Row : Type := Obj Value.

(** [documentData: { [sheetName: string]: any[] }] *)
Definition DocumentData : Type := Obj (list Row).

Definition log (entry : Console.Entry) : Eff Console.Log unit :=
  fun console => (Returns tt, (console ++ [entry])%list).

Definition stopWords : list string :=
  ["a"; "an"; "the"; "and"; "or"; "but"; "is"; "are"; "was"; "were";
   "of"; "in"; "to"; "for"; "with"; "about"; "by"; "at"; "on"].

(** The [keywords] of a query (lines 47-50). *)
Definition keywords (query : string) : list string :=
  filter (fun word => (2 <? String.length word) && negb (arrayIncludes stopWords word))
    (split " "
       (replaceAll (fun c => negb (isWordChar c || isSpace c)) " "
          (toLowerCase query))).

(** [JSON.stringify(row).toLowerCase()] (line 60). *)
Definition rowStr (row : Row) : string := toLowerCase (stringify row).

(** The [matches] of a row (line 63). *)
Definition matches (keywords : list string) (row : Row) : list string :=
  filter (fun keyword => includes (rowStr row) keyword) keywords.

(** [formattedRow] (lines 67-69 and 90-92). *)
Definition formattedRow (row : Row) : string :=
  join ", " (map (fun kv => fst kv ++ ": " ++ toString (snd kv)) (entries row)).

Definition fromSheet (sheetName : string) (rowIndex : nat) (row : Row) : string :=
  "[From sheet " ++ dquote ++ sheetName ++ dquote ++ ", row "
    ++ natToString (rowIndex + 1) ++ "]: " ++ formattedRow row.

Definition sampleFromSheet (sheetName : string) (sampleRow : Row) : string :=
  "[Sample from sheet " ++ dquote ++ sheetName ++ dquote ++ "]: "
    ++ formattedRow sampleRow.

(** The first pair of nested [forEach] loops (lines 57-74), pushing onto
    [relevantContent]. *)
Definition collectMatches (keywords : list string) (documentData : DocumentData)
           (relevantContent : list string) : list string :=
  forEach (fun relevantContent (sheet : string * list Row) _ =>
             let (sheetName, rows) := sheet in
             forEach (fun relevantContent row rowIndex =>
                        if 0 <? List.length (matches keywords row)
                        then (relevantContent ++ [fromSheet sheetName rowIndex row])%list
                        else relevantContent)
                     rows relevantContent)
          (entries documentData) relevantContent.

(** The second [forEach] loop (lines 87-96): [rows[0]] of every sheet with
    [rows.length > 0]. *)
Definition collectSamples (documentData : DocumentData)
           (relevantContent : list string) : list string :=
  forEach (fun relevantContent (sheet : string * list Row) _ =>
             let (sheetName, rows) := sheet in
             match rows with
             | sampleRow :: _ =>
                 (relevantContent ++ [sampleFromSheet sheetName sampleRow])%list
             | [] => relevantContent
             end)
          (entries documentData) relevantContent.

Definition findRelevantContent (documentData : DocumentData) (query : string)
  : Eff Console.Log (list string) :=
  (let keywords := keywords query in
   log [Console.Text "Searching for keywords:"; Console.Strings keywords] ;;
   let relevantContent := collectMatches keywords documentData [] in
   if 20 <? List.length relevantContent then
     log [Console.Text ("Found " ++ natToString (List.length relevantContent)
                          ++ " matching items, truncating to 20 most relevant")] ;;
     ret (slice 0 20 relevantContent)
   else if List.length relevantContent =? 0 then
     log [Console.Text "No exact matches found, including sample data"] ;;
     ret (collectSamples documentData relevantContent)
   else
     ret relevantContent)%eff.

End ChatInterface.

(** ** src/lib/azure-search.ts *)

Module AzureSearch.

Definition stopWords : list string :=
  ["a"; "about"; "above"; "after"; "again"; "against"; "all"; "am"; "an"; "and";
   "any"; "are"; "as"; "at"; "be"; "because"; "been"; "before"; "being"; "below";
   "between"; "both"; "but"; "by"; "can"; "did"; "do"; "does"; "doing"; "don";
   "down"; "during"; "each"; "few"; "for"; "from"; "further"; "had"; "has"; "have";
   "having"; "he"; "her"; "here"; "hers"; "herself"; "him"; "himself"; "his";
   "how"; "i"; "if"; "in"; "into"; "is"; "it"; "its"; "itself"; "just"; "me";
   "more"; "most"; "my"; "myself"; "no"; "nor"; "not"; "now"; "of"; "off"; "on";
   "once"; "only"; "or"; "other"; "our"; "ours"; "ourselves"; "out"; "over"; "own";
   "same"; "she"; "should"; "so"; "some"; "such"; "than"; "that"; "the"; "their";
   "theirs"; "them"; "themselves"; "then"; "there"; "these"; "they"; "this"; "those";
   "through"; "to"; "too"; "under"; "until"; "up"; "very"; "was"; "we"; "were";
   "what"; "when"; "where"; "which"; "while"; "who"; "whom"; "why"; "will"; "with";
   "would"; "you"; "your"; "yours"; "yourself"; "yourselves"; "tell"; "me"; "give";
   "information"; "explain"; "show"; "find"; "search"; "look"].

(** [tokens] (lines 97-101). *)
Definition tokens (query : string) : list string :=
  filter (fun word => (1 <? String.length word) && negb (arrayIncludes stopWords word))
    (splitWhitespace
       (replaceAll (fun c => negb (isWordChar c || isSpace c)) " "
          (toLowerCase query))).

Definition at_ (tokens : list string) (i : nat) : string := nth i tokens "".

(** [for (let i = 0; i < tokens.length - 1; i++)] (lines 110-112). *)
Definition twoWordPhrases (tokens : list string) : list string :=
  map (fun i => at_ tokens i ++ " " ++ at_ tokens (i + 1))
      (seq 0 (List.length tokens - 1)).

(** [for (let i = 0; i < tokens.length - 2; i++)] (lines 115-117). *)
Definition threeWordPhrases (tokens : list string) : list string :=
  map (fun i => at_ tokens i ++ " " ++ at_ tokens (i + 1) ++ " " ++ at_ tokens (i + 2))
      (seq 0 (List.length tokens - 2)).

Definition extractKeywords (query : string) : list string :=
  let tokens := tokens query in
  let phrases := ([] ++ tokens)%list in
  let phrases := (phrases ++ twoWordPhrases tokens)%list in
  let phrases := (phrases ++ threeWordPhrases tokens)%list in
  SetFrom phrases.

End AzureSearch.

(** ** src/lib/azure-language.ts *)

Module AzureLanguage.

(** A document as [processSheets] builds it: [{ id, language, text }]. *)
Record Document : Type := { id : string; language : string; text : string }.

(** [JSON.stringify(input)] for [input: Document[]]. *)
Definition stringifyDocuments (documents : list Document) : string :=
  "[" ++ join ","
           (map (fun doc => "{" ++ quote "id" ++ ":" ++ quote (id doc)
                              ++ "," ++ quote "language" ++ ":" ++ quote (language doc)
                              ++ "," ++ quote "text" ++ ":" ++ quote (text doc) ++ "}")
                documents) ++ "]".

(** [input: string | Document[]] *)
Inductive Input : Type :=
| InString (s : string)
| InDocuments (documents : list Document).

(** One per-document result of the service: [error] or [keyPhrases]. *)
Record AnalysisResult : Type :=
  { error : option string; keyPhrases : option (list string) }.

(** The class [[.,\/#!$%\^&\*;:{}=\-_`~()]]. *)
Definition isPunctuation (c : ascii) : bool :=
  existsb (Ascii.eqb c) (list_ascii_of_string ".,/#!$%^&*;:{}=-_`~()").

(** [c === c.toUpperCase() && c !== c.toLowerCase()] for [c = cleanWord[0]]. *)
Definition isCapital (c : ascii) : bool :=
  (if list_eq_dec Nat.eq_dec [code c] (toUpperCaseUnits c) then true else false)
  && negb (Ascii.eqb c (toLowerCaseChar c)).

Definition importantWords : list string :=
  ["important"; "significant"; "key"; "critical"; "major"].

Definition getMockKeyPhrases (text : string) : list string :=
  let words := splitWhitespace text in
  let keyPhrases : list string := [] in
  let keyPhrases :=
    forEach (fun keyPhrases word i =>
               let cleanWord := replaceAll isPunctuation "" word in
               let keyPhrases :=
                 if (0 <? i) && (3 <? String.length cleanWord)
                    && match cleanWord with
                       | String c _ => isCapital c
                       | EmptyString => false
                       end
                 then SetAdd keyPhrases cleanWord else keyPhrases in
               if (0 <? i)
                  && arrayIncludes importantWords (toLowerCase (nth (i - 1) words ""))
               then SetAdd keyPhrases cleanWord else keyPhrases)
            words keyPhrases in
  let keyPhrases :=
    if List.length keyPhrases =? 0 then
      forEach (fun keyPhrases word (_ : nat) =>
                 let cleanWord := replaceAll isPunctuation "" word in
                 if 6 <? String.length cleanWord
                 then SetAdd keyPhrases cleanWord else keyPhrases)
              words keyPhrases
    else keyPhrases in
  slice 0 10 keyPhrases.

Section Service.

(** The text-analytics client: [analyze("KeyPhraseExtraction", documents)]
    answers with per-document results or throws, and may change. *)
Variable Client : Type.
Variable analyze : Client -> list Document -> Outcome (list AnalysisResult) * Client.

(** [this.hasCredentials] *)
Variable hasCredentials : bool.

Record World : Type := { client : Client; console : Console.Log }.

Definition log (entry : Console.Entry) : Eff World unit :=
  fun w => (Returns tt, {| client := client w; console := (console w ++ [entry])%list |}).

Definition clientAnalyze (documents : list Document) : Eff World (list AnalysisResult) :=
  fun w =>
    let (results, c) := analyze (client w) documents in
    (results, {| client := c; console := console w |}).

Definition extractKeyPhrases (input : Input) : Eff World (list string) :=
  tryCatch
    (if negb hasCredentials then
       ret (getMockKeyPhrases
              match input with
              | InString s => s
              | InDocuments documents => stringifyDocuments documents
              end)
     else
       let documents :=
         match input with
         | InDocuments documents => documents
         | InString s => [{| id := "1"; language := "en"; text := s |}]
         end in
       let validDocuments :=
         filter (fun doc => negb (String.eqb (text doc) "")
                            && (0 <? String.length (trim (text doc))))
                documents in
       if List.length validDocuments =? 0 then
         log [Console.Text "No valid documents to process for key phrase extraction"] ;;
         ret []
       else
         results <- clientAnalyze validDocuments ;;
         forOf (fun keyPhrases result =>
                  match error result, AzureLanguage.keyPhrases result with
                  | None, Some phrases => ret (keyPhrases ++ phrases)%list
                  | Some message, _ =>
                      log [Console.Text ("Error in key phrase extraction: " ++ message)] ;;
                      ret keyPhrases
                  | None, None => ret keyPhrases
                  end)
               results [])%eff
    (fun message =>
       log [Console.Text "Error extracting key phrases:"; Console.Text message] ;;
       ret match input with
           | InDocuments documents => getMockKeyPhrases (stringifyDocuments documents)
           | InString s => getMockKeyPhrases s
           end)%eff.

End Service.

Arguments client {Client} _.
Arguments console {Client} _.
Arguments Build_World {Client} _ _.
Arguments log {Client} entry _.
Arguments clientAnalyze {Client} analyze documents _.
Arguments extractKeyPhrases {Client} analyze hasCredentials input _.

End AzureLanguage.

(** ** src/components/KeyPhraseExtraction.tsx *)

Module KeyPhraseExtraction.

Import AzureLanguage.

Definition Row : Type := Obj Value.

Definition batchSize : nat := 10.

(** [row[col]] for a column that is an own property of the row, or absent:
    [None] is [undefined]. *)
Fixpoint get (row : Row) (col : string) : option Value :=
  match row with
  | [] => None
  | (k, v) :: t => if String.eqb k col then Some v else get t col
  end.

(** [columnsToUse] (lines 51-66). *)
Definition columnsToUse (firstRow : Row) : list string :=
  let columns := keys firstRow in
  let textColumns :=
    filter (fun col =>
              let colLower := toLowerCase col in
              includes colLower "description" || includes colLower "comment"
              || includes colLower "text" || includes colLower "note"
              || includes colLower "detail")
           columns in
  if 0 <? List.length textColumns then textColumns else columns.

(** The [documents] of the batch starting at row [i] (lines 77-92). *)
Definition documents (columnsToUse : list string) (i : nat) (batch : list Row)
  : list Document :=
  filter (fun doc => 0 <? String.length (text doc))
    (mapIndexed (fun row index =>
                   let text :=
                     join ". "
                       (filter (fun text => negb (String.eqb (trim text) ""))
                          (map (fun col =>
                                  match get row col with
                                  | None | Some VNull => ""
                                  | Some value => toString value
                                  end)
                               columnsToUse)) in
                   {| id := natToString (i + index); language := "en"; text := trim text |})
                batch).

(** The values [i] takes in [for (let i = 0; i < n; i += batchSize)]. *)
Definition batchStarts (n : nat) : list nat :=
  filter (fun i => i mod batchSize =? 0) (seq 0 n).

(** [sort((a, b) => a.length - b.length)], which is stable. *)
Fixpoint insertByLength (x : string) (sorted : list string) : list string :=
  match sorted with
  | [] => [x]
  | y :: t =>
      if String.length x <=? String.length y then x :: sorted
      else y :: insertByLength x t
  end.

Definition sortByLength (arr : list string) : list string :=
  fold_right insertByLength [] arr.

(** What [setResults] stores for one sheet. *)
Record SheetKeyPhrases : Type :=
  { sheetName : string;
    keyPhrases : list string;
    isProcessing : bool;
    error : option string }.

Section Service.

Variable Client : Type.
Variable analyze : Client -> list Document -> Outcome (list AnalysisResult) * Client.
Variable hasCredentials : bool.

Let World : Type := AzureLanguage.World Client.

(** The batch loop of one sheet (lines 70-100), giving [allKeyPhrases]. *)
Definition batchLoop (columnsToUse : list string) (sheetData : list Row)
  : Eff World (list string) :=
  forOf (fun allKeyPhrases i =>
           let batch := slice i (i + batchSize) sheetData in
           let documents := documents columnsToUse i batch in
           if List.length documents =? 0 then ret allKeyPhrases
           else
             (batchKeyPhrases <-
                extractKeyPhrases analyze hasCredentials (InDocuments documents) ;;
              ret (allKeyPhrases ++ batchKeyPhrases)%list)%eff)
        (batchStarts (List.length sheetData)) [].

(** The body of the loop over the sheets in [processSheets]
    (lines 35-127), giving the entry stored for the sheet. *)
Definition processSheet (name : string) (sheetData : list Row)
  : Eff World SheetKeyPhrases :=
  tryCatch
    (match sheetData with
     | [] =>
         ret {| sheetName := name; keyPhrases := []; isProcessing := false;
                error := Some "No data in sheet" |}
     | firstRow :: _ =>
         allKeyPhrases <- batchLoop (columnsToUse firstRow) sheetData ;;
         let uniqueKeyPhrases := sortByLength (SetFrom allKeyPhrases) in
         ret {| sheetName := name; keyPhrases := uniqueKeyPhrases;
                isProcessing := false; error := None |}
     end)%eff
    (fun message =>
       log [Console.Text ("Error processing sheet " ++ name ++ ":");
                   Console.Text message] ;;
       ret {| sheetName := name; keyPhrases := []; isProcessing := false;
              error := Some message |})%eff.

End Service.

Arguments batchLoop {Client} analyze hasCredentials columnsToUse sheetData _.
Arguments processSheet {Client} analyze hasCredentials name sheetData _.

End KeyPhraseExtraction.

(** ** src/lib/azure-openai.ts *)

(** [throw error]. *)
Definition throw {St A} (message : string) : Eff St A :=
  fun st => (Throws message, st).

(** [try { body } finally { cleanup }]. *)
Definition tryFinally {St A} (body : Eff St A) (cleanup : Eff St unit) : Eff St A :=
  fun st =>
    match body st with
    | (outcome, st') =>
        match cleanup st' with
        | (Returns _, st'') => (outcome, st'')
        | (Throws e, st'') => (Throws e, st'')
        end
    end.

Module AzureOpenAI.

Definition newline : string := String (ascii_of_nat 10) EmptyString.

(** One entry of [messages]: [{ role, content }]. *)
Record ChatMessage : Type := { role : string; content : string }.

(** One entry of [response.choices]: [message] may be missing, its
    [content] may be [null]. *)
Record Choice : Type := { message : option (option string) }.

Definition systemMessage : string :=
  "You are a helpful assistant that provides analysis of spreadsheet data. Format your responses using markdown where appropriate. Use tables for tabular data, code blocks for code or structured content, and headings for organization.".

(** The [messages] built for a prompt and its optional context
    (lines 22-45). *)
Definition messages (prompt : string) (context : option (list string))
  : list ChatMessage :=
  let messages := [{| role := "system"; content := systemMessage |}] in
  let messages :=
    match context with
    | Some ((_ :: _) as context) =>
        let contextStr := join (newline ++ newline) context in
        (messages
           ++ [{| role := "system";
                  content := "Here is the relevant data from the user's spreadsheets:"
                               ++ newline ++ newline ++ contextStr |}]
           ++ [{| role := "system";
                  content := "Use the data provided above to answer the user's question. Format your response with markdown. If the answer isn't in the data, say you don't have that information and provide a general response." |}])%list
    | _ =>
        (messages
           ++ [{| role := "system";
                  content := "I don't have specific data to reference for this query. I'll respond based on general knowledge. Format your response with markdown where appropriate." |}])%list
    end in
  (messages ++ [{| role := "user"; content := prompt |}])%list.

Section Service.

(** The completions client: [getChatCompletions(deploymentName, messages,
    { maxTokens: 800, temperature: 0.7 })] answers with choices or throws,
    and may change. *)
Variable Client : Type.
Variable getChatCompletions : Client -> list ChatMessage -> Outcome (list Choice) * Client.

Record World : Type := { client : Client; console : Console.Log }.

Definition log (entry : Console.Entry) : Eff World unit :=
  fun w => (Returns tt, {| client := client w; console := (console w ++ [entry])%list |}).

Definition clientGetChatCompletions (messages : list ChatMessage)
  : Eff World (list Choice) :=
  fun w =>
    let (choices, c) := getChatCompletions (client w) messages in
    (choices, {| client := c; console := console w |}).

(** [response.choices[0].message?.content || "No response generated"];
    reading [message] of a missing first choice is a TypeError, given here
    with the message V8 prints. *)
Definition generateCompletion (prompt : string) (context : option (list string))
  : Eff World string :=
  tryCatch
    (let messages := messages prompt context in
     choices <- clientGetChatCompletions messages ;;
     match choices with
     | [] => throw "Cannot read properties of undefined (reading 'message')"
     | choice :: _ =>
         ret match message choice with
             | Some (Some content) =>
                 if String.eqb content "" then "No response generated" else content
             | _ => "No response generated"
             end
     end)%eff
    (fun error =>
       log [Console.Text "Error generating completion:"; Console.Text error] ;;
       throw error)%eff.

End Service.

Arguments client {Client} _.
Arguments console {Client} _.
Arguments Build_World {Client} _ _.
Arguments log {Client} entry _.
Arguments clientGetChatCompletions {Client} getChatCompletions messages _.
Arguments generateCompletion {Client} getChatCompletions prompt context _.

End AzureOpenAI.

(** ** src/components/ChatInterface.tsx: sending a message *)

Module ChatInterfaceSend.

Import ChatInterface.

Inductive Role : Type := user | assistant | system.

(** [interface Message] *)
Record Message : Type := { role : Role; content : string }.

Section Service.

Variable Client : Type.
Variable getChatCompletions :
  Client -> list AzureOpenAI.ChatMessage -> Outcome (list AzureOpenAI.Choice) * Client.

(** The state of the component as one call of the handler sees and changes
    it, with the completions service and the console. *)
Record World : Type :=
  { messages : list Message;
    inputValue : string;
    isLoading : bool;
    service : AzureOpenAI.World Client }.

Definition setMessages (update : list Message -> list Message) : Eff World unit :=
  fun w => (Returns tt, {| messages := update (messages w); inputValue := inputValue w;
                           isLoading := isLoading w; service := service w |}).

Definition setInputValue (value : string) : Eff World unit :=
  fun w => (Returns tt, {| messages := messages w; inputValue := value;
                           isLoading := isLoading w; service := service w |}).

Definition setIsLoading (value : bool) : Eff World unit :=
  fun w => (Returns tt, {| messages := messages w; inputValue := inputValue w;
                           isLoading := value; service := service w |}).

(** Code of the completions service, run on the service of the component. *)
Definition onService {A} (m : Eff (AzureOpenAI.World Client) A) : Eff World A :=
  fun w =>
    let (outcome, s) := m (service w) in
    (outcome, {| messages := messages w; inputValue := inputValue w;
                 isLoading := isLoading w; service := s |}).

(** Code that only writes to the console, run on the console they share. *)
Definition onConsole {A} (m : Eff Console.Log A) : Eff World A :=
  onService (fun s =>
               let (outcome, console) := m (AzureOpenAI.console s) in
               (outcome, {| AzureOpenAI.client := AzureOpenAI.client s;
                            AzureOpenAI.console := console |})).

Definition handleSendMessage (documentData : DocumentData) : Eff World unit :=
  fun w =>
    if String.eqb (trim (inputValue w)) "" || isLoading w then (Returns tt, w)
    else
      tryFinally
        (tryCatch
           (setIsLoading true ;;
            let userMessage := trim (inputValue w) in
            setInputValue "" ;;
            setMessages (fun prev => prev ++ [{| role := user; content := userMessage |}])%list ;;
            context <- onConsole (findRelevantContent documentData userMessage) ;;
            onConsole (ChatInterface.log
                         [Console.Text ("Found " ++ natToString (List.length context)
                                          ++ " relevant items in the data")]) ;;
            response <- onService (AzureOpenAI.generateCompletion getChatCompletions
                                     userMessage (Some context)) ;;
            setMessages (fun prev => prev ++ [{| role := assistant; content := response |}])%list)
           (fun error =>
              onConsole (ChatInterface.log [Console.Text "Error in chat:"; Console.Text error]) ;;
              setMessages
                (fun prev =>
                   prev ++ [{| role := assistant;
                               content := "I'm sorry, I encountered an error processing your request." |}])%list))%eff
        (setIsLoading false)
        w.

End Service.

Arguments messages {Client} _.
Arguments inputValue {Client} _.
Arguments isLoading {Client} _.
Arguments service {Client} _.
Arguments Build_World {Client} _ _ _ _.
Arguments handleSendMessage {Client} getChatCompletions documentData _.

End ChatInterfaceSend.

(** ** src/lib/azure-search.ts: searching *)

Module AzureSearchService.

(** A JSON value, as a response of the proxy carries them; a number is
    carried by its text. *)
#[local] Unset Elimination Schemes.
Inductive Json : Type :=
| JNull
| JBoolean (b : bool)
| JNumber (text : string)
| JString (s : string)
| JArray (items : list Json)
| JObject (properties : list (string * Json)).
#[local] Set Elimination Schemes.

Definition newline : string := String (ascii_of_nat 10) EmptyString.

(** [JSON.stringify(value, null, 2)], at the indentation [indent]. *)
Fixpoint stringifyIndented (indent : string) (value : Json) : string :=
  let inner := indent ++ "  " in
  match value with
  | JNull => "null"
  | JBoolean true => "true"
  | JBoolean false => "false"
  | JNumber text => text
  | JString s => quote s
  | JArray [] => "[]"
  | JArray items =>
      "[" ++ newline ++ inner
        ++ join ("," ++ newline ++ inner) (map (stringifyIndented inner) items)
        ++ newline ++ indent ++ "]"
  | JObject [] => "{}"
  | JObject properties =>
      "{" ++ newline ++ inner
        ++ join ("," ++ newline ++ inner)
             (map (fun kv => quote (fst kv) ++ ": " ++ stringifyIndented inner (snd kv))
                  properties)
        ++ newline ++ indent ++ "}"
  end.

(** What [axios.post] throws: an error with a message and, when the server
    answered, the data of its response. *)
Record AxiosError : Type := { message : string; response : option Json }.

(** What [axios.post] resolves to, for a search: [data] may be missing, and
    so may its [value], the array of hits. *)
Record Data : Type := { value : option (list Json) }.
Record Response : Type := { data : option Data }.

(** A settled promise. *)
Inductive Settled (A : Type) : Type :=
| Fulfilled (a : A)
| Rejected (error : AxiosError).
Arguments Fulfilled {A} a.
Arguments Rejected {A} error.

Definition Async (St A : Type) : Type := St -> Settled A * St.

Definition resolve {St A} (a : A) : Async St A := fun st => (Fulfilled a, st).

Definition andThen {St A B} (m : Async St A) (k : A -> Async St B) : Async St B :=
  fun st =>
    match m st with
    | (Fulfilled a, st') => k a st'
    | (Rejected e, st') => (Rejected e, st')
    end.

(** [try { body } catch (error) { handler }] around awaited code. *)
Definition catch {St A} (body : Async St A) (handler : AxiosError -> Async St A)
  : Async St A :=
  fun st =>
    match body st with
    | (Fulfilled a, st') => (Fulfilled a, st')
    | (Rejected e, st') => handler e st'
    end.

Declare Scope async_scope.
Delimit Scope async_scope with async.
Notation "x <- m ;; k" := (andThen m (fun x => k))
  (at level 100, m at next level, right associativity) : async_scope.
Notation "m ;; k" := (andThen m (fun _ => k))
  (at level 100, right associativity) : async_scope.

(** One argument of a console call of this service. *)
Inductive LogArg : Type :=
| Text (s : string)
| Error (error : AxiosError)
| Value (value : Json).

Definition proxyUrl : string := "http://localhost:3001".

(** [getMockSearchResults] (lines 188-201). *)
Definition getMockSearchResults (query : string) : list Json :=
  [JObject [("id", JString "mock-1");
            ("content", JString ("This is mock content related to "
                                   ++ dquote ++ query ++ dquote));
            ("metadata", JObject [("sheetName", JString "MockSheet")])];
   JObject [("id", JString "mock-2");
            ("content", JString ("Additional information about "
                                   ++ dquote ++ query ++ dquote ++ " and related topics"));
            ("metadata", JObject [("sheetName", JString "MockSheet")])]].

(** The [words] of the fallback search (lines 129-131): the tokens longer
    than two code units, then stripped of what is no word character. *)
Definition fallbackWords (query : string) : list string :=
  map (replaceAll (fun c => negb (isWordChar c)) "")
      (filter (fun word => 2 <? String.length word) (splitWhitespace query)).

(** [sort((a, b) => b.length - a.length)], which is stable. *)
Fixpoint insertByLengthDescending (x : string) (sorted : list string) : list string :=
  match sorted with
  | [] => [x]
  | y :: t =>
      if String.length y <=? String.length x then x :: sorted
      else y :: insertByLengthDescending x t
  end.

Definition sortByLengthDescending (arr : list string) : list string :=
  fold_right insertByLengthDescending [] arr.

Definition searchUrl (currentIndexName : string) : string :=
  proxyUrl ++ "/api/search/indexes/" ++ currentIndexName ++ "/docs/search".

Section Service.

(** The proxy behind [axios.post(url, body)]: it answers or throws, and may
    change. *)
Variable Http : Type.
Variable post : Http -> string -> Json -> Settled Response * Http.

Record World : Type :=
  { currentIndexName : string;
    http : Http;
    console : list (list LogArg) }.

Definition log (entry : list LogArg) : Async World unit :=
  fun w => (Fulfilled tt, {| currentIndexName := currentIndexName w; http := http w;
                             console := (console w ++ [entry])%list |}).

Definition axiosPost (url : string) (body : Json) : Async World Response :=
  fun w =>
    let (response, h) := post (http w) url body in
    (response, {| currentIndexName := currentIndexName w; http := h;
                  console := console w |}).

(** [response.data && response.data.value] with a hit in it. *)
Definition hits (response : Response) : list Json :=
  match data response with
  | Some {| value := Some value |} => value
  | _ => []
  end.

(** [fallbackSearch] (lines 124-185). *)
Definition fallbackSearch (query : string) (top : nat) : Async World (list Json) :=
  fun w =>
    catch
      (log [Text ("Trying basic keyword search for: " ++ dquote ++ query ++ dquote)] ;;
       let words := fallbackWords query in
       if List.length words =? 0 then resolve (getMockSearchResults query)
       else
         let searchQuery := join " OR " words in
         response <-
           axiosPost (searchUrl (currentIndexName w))
             (JObject [("search", JString searchQuery);
                       ("queryType", JString "simple");
                       ("searchMode", JString "any");
                       ("top", JNumber (natToString (top * 2)));
                       ("select", JString "id,content,metadata")]) ;;
         match hits response with
         | (_ :: _) as value =>
             log [Text ("Basic keyword search returned "
                          ++ natToString (List.length value) ++ " results")] ;;
             resolve value
         | [] =>
             match sortByLengthDescending words with
             | longestWord :: _ =>
                 log [Text ("Trying last-resort search with keyword: " ++ longestWord)] ;;
                 lastResponse <-
                   axiosPost (searchUrl (currentIndexName w))
                     (JObject [("search", JString longestWord);
                               ("queryType", JString "simple");
                               ("searchMode", JString "any");
                               ("top", JNumber (natToString top));
                               ("select", JString "id,content,metadata")]) ;;
                 match hits lastResponse with
                 | (_ :: _) as value => resolve value
                 | [] => resolve (getMockSearchResults query)
                 end
             | [] => resolve (getMockSearchResults query)
             end
         end)%async
      (fun error =>
         log [Text "Error in fallback search:"; Error error] ;;
         resolve (getMockSearchResults query))%async
      w.

(** What the [try] or the [catch] of [searchDocuments] ends with: a result,
    or [return this.fallbackSearch(query, top)], whose promise is returned
    without being awaited there. *)
Inductive Return : Type :=
| Result (results : list Json)
| FallbackSearch.

(** [searchDocuments] (lines 14-74), [top] defaulting to 10. *)
Definition searchDocuments (query : string) (top : option nat)
  : Async World (list Json) :=
  fun w =>
    let top := match top with Some top => top | None => 10 end in
    (returned <-
       catch
         (if String.eqb (currentIndexName w) "" then
            log [Text "No index available for search"] ;;
            resolve (Result (getMockSearchResults query))
          else
            let keywords := AzureSearch.extractKeywords query in
            log [Text ("Searching index " ++ currentIndexName w ++ " for: "
                         ++ dquote ++ query ++ dquote)] ;;
            log [Text ("Keywords: " ++ join ", " keywords)] ;;
            response <-
              axiosPost (searchUrl (currentIndexName w))
                (JObject [("search", JString query);
                          ("queryType", JString "full");
                          ("searchMode", JString "any");
                          ("searchFields",
                           JArray [JString "content"; JString "metadata/sheetName";
                                   JString "metadata/additionalInfo"]);
                          ("queryLanguage", JString "en-US");
                          ("top", JNumber (natToString top));
                          ("select", JString "id,content,metadata");
                          ("highlight", JString "content");
                          ("semanticSearch", JBoolean true)]) ;;
            match data response with
            | Some {| value := Some value |} =>
                log [Text ("Search returned " ++ natToString (List.length value)
                             ++ " results")] ;;
                match value with
                | first :: _ =>
                    log [Text "Sample result:"; Text (stringifyIndented "" first)] ;;
                    resolve (Result value)
                | [] =>
                    log [Text "No results found for query, trying fallback search..."] ;;
                    resolve FallbackSearch
                end
            | _ => resolve (Result (getMockSearchResults query))
            end)
         (fun error =>
            log [Text "Error searching documents:"; Error error] ;;
            match response error with
            | Some responseData => log [Text "API response:"; Value responseData]
            | None => resolve tt
            end ;;
            log [Text "Trying fallback keyword-only search due to error"] ;;
            resolve FallbackSearch) ;;
     match returned with
     | Result results => resolve results
     | FallbackSearch => fallbackSearch query top
     end)%async
      w.

End Service.

Arguments currentIndexName {Http} _.
Arguments http {Http} _.
Arguments console {Http} _.
Arguments Build_World {Http} _ _ _.
Arguments fallbackSearch {Http} post query top _.
Arguments searchDocuments {Http} post query top _.

End AzureSearchService.

(** ** src/lib/azure-language.ts: the label of the mock sentiment analysis *)

Module AzureLanguageSentiment.

Definition positiveWords : list string :=
  ["good"; "great"; "excellent"; "amazing"; "wonderful"; "best"; "happy";
   "positive"; "success"].

Definition negativeWords : list string :=
  ["bad"; "terrible"; "awful"; "horrible"; "worst"; "sad"; "negative"; "failure";
   "poor"].

(** [words] (line 153). *)
Definition words (text : string) : list string := splitWhitespace (toLowerCase text).

(** [positiveCount] and [negativeCount] after the loop (lines 154-160). *)
Definition counts (text : string) : nat * nat :=
  forEach (fun (count : nat * nat) word (_ : nat) =>
             let (positiveCount, negativeCount) := count in
             let positiveCount :=
               if existsb (fun pw => includes word pw) positiveWords
               then positiveCount + 1 else positiveCount in
             let negativeCount :=
               if existsb (fun nw => includes word nw) negativeWords
               then negativeCount + 1 else negativeCount in
             (positiveCount, negativeCount))
          (words text) (0, 0).

Inductive Sentiment : Type := neutral | positive | negative | mixed.

(** The [sentiment] of [getMockSentimentAnalysis] (lines 162-165).  The
    confidence scores of its result are floating-point numbers and are not
    part of this model. *)
Definition sentiment (text : string) : Sentiment :=
  let (positiveCount, negativeCount) := counts text in
  if negativeCount * 2 <? positiveCount then positive
  else if positiveCount * 2 <? negativeCount then negative
  else if (0 <? positiveCount) && (0 <? negativeCount) then mixed
  else neutral.

End AzureLanguageSentiment.

(** ** The key-phrase batches, as the specification words them *)

Module KeyPhraseSpec.

Import AzureLanguage KeyPhraseExtraction.

(** A document the service is sent: its text is not blank. *)
Definition isValid (doc : Document) : bool :=
  negb (String.eqb (text doc) "") && (0 <? String.length (trim (text doc))).

(** The key phrases of the per-document results that carry no error. *)
Definition successfulPhrases (results : list AnalysisResult) : list string :=
  flat_map (fun result =>
              match AzureLanguage.error result, AzureLanguage.keyPhrases result with
              | None, Some phrases => phrases
              | _, _ => []
              end)
           results.

(** The batches of a sheet: its rows ten at a time, as documents, the batches
    left with no document dropped. *)
Definition documentBatches (columnsToUse : list string) (sheetData : list Row)
  : list (list Document) :=
  filter (fun batch => negb (List.length batch =? 0))
    (map (fun i => documents columnsToUse i (slice i (i + batchSize) sheetData))
         (batchStarts (List.length sheetData))).

Section Service.

Variable Client : Type.
Variable analyze : Client -> list Document -> Outcome (list AnalysisResult) * Client.

(** What one batch contributes and how it leaves the client: the phrases of
    its successful results, or the mock phrases when the call throws. *)
Definition batchOutcome (c : Client) (batch : list Document) : list string * Client :=
  match analyze c batch with
  | (Returns results, c') => (successfulPhrases results, c')
  | (Throws _, c') => (getMockKeyPhrases (stringifyDocuments batch), c')
  end.

(** Every batch is submitted in turn, whatever the earlier ones gave. *)
Fixpoint runBatches (c : Client) (batches : list (list Document))
  : list string * Client :=
  match batches with
  | [] => ([], c)
  | batch :: rest =>
      let (phrases, c') := batchOutcome c batch in
      let (more, c'') := runBatches c' rest in
      ((phrases ++ more)%list, c'')
  end.

End Service.

Arguments batchOutcome {Client} analyze c batch.
Arguments runBatches {Client} analyze c batches.

End KeyPhraseSpec.

(** ** The selector, as the specification words it *)

Module Spec.

Import ChatInterface.

(** Step 1 and 2: lowercase, blank out what is neither a word character nor
    white space, split on white space, drop short tokens and stop words. *)
Definition keywords (query : string) : list string :=
  filter (fun token => negb (String.length token <=? 2)
                       && negb (arrayIncludes stopWords token))
    (splitWhitespace
       (replaceAll (fun c => negb (isWordChar c || isSpace c)) " "
          (toLowerCase query))).

(** Step 3: a row matches if at least one keyword is a substring of the
    serialized row. *)
Definition rowMatches (keywords : list string) (row : Row) : bool :=
  existsb (fun keyword => includes (rowStr row) keyword) keywords.

(** Step 4: the snippets of the matching rows of one sheet, in row order,
    the first row having index [i]. *)
Fixpoint sheetSnippets (keywords : list string) (sheetName : string) (i : nat)
         (rows : list Row) : list string :=
  match rows with
  | [] => []
  | row :: t =>
      (if rowMatches keywords row then [fromSheet sheetName i row] else [])
        ++ sheetSnippets keywords sheetName (S i) t
  end%list.

(** Step 5, before the cap: the matches of all sheets in sheet order, then
    row order within each sheet. *)
Definition matchedSnippets (keywords : list string) (documentData : DocumentData)
  : list string :=
  flat_map (fun sheet => sheetSnippets keywords (fst sheet) 0 (snd sheet)) documentData.

(** Step 6: one snippet per sheet that has a row, from its first row. *)
Definition sampleFallback (documentData : DocumentData) : list string :=
  flat_map (fun sheet =>
              match snd sheet with
              | sampleRow :: _ => [sampleFromSheet (fst sheet) sampleRow]
              | [] => []
              end)
           documentData.

Definition nonEmptySheets (documentData : DocumentData) : list (string * list Row) :=
  filter (fun sheet => negb (List.length (snd sheet) =? 0)) documentData.

(** Steps 5 to 7 on the keywords of the query. *)
Definition selectContext (keywords : list string) (documentData : DocumentData)
  : list string :=
  let matched := matchedSnippets keywords documentData in
  if 20 <? List.length matched then firstn 20 matched
  else match matched with
       | [] => sampleFallback documentData
       | _ => matched
       end.

End Spec.

(** ** Character classes of strings *)

Module Chars.

(** Every code unit of [s] satisfies [p]. *)
Fixpoint allChars (p : ascii -> bool) (s : string) : bool :=
  match s with
  | EmptyString => true
  | String c t => p c && allChars p t
  end.



Definition noSpace (s : string) : bool := allChars (fun c => negb (Ascii.eqb c " ")) s.

(** The only white space of [s] is the space. *)
Definition spaceSeparated (s : string) : bool :=
  allChars (fun c => negb (isSpace c) || Ascii.eqb c " ") s.

(** What a code unit of a keyword of the selector can be: a word character
    or white space other than the space, and never a capital. *)
Definition isKeywordChar (c : ascii) : bool :=
  (isWordChar c || isSpace c) && negb (Ascii.eqb c " ")
  && Ascii.eqb (toLowerCaseChar c) c.

End Chars.

(** ** Sample inputs *)

Module Examples.

Import ChatInterface.

Definition tab : string := String (ascii_of_nat 9) EmptyString.

(** [{"Sheet1": [{"city":"Paris","note":"nice weather"}]}] *)
Definition sheet1 : DocumentData :=
  [("Sheet1", [[("city", VString "Paris"); ("note", VString "nice weather")]])].

(** [{"Sheet1": []}]: one sheet, no rows. *)
Definition emptySheet : DocumentData := [("Sheet1", [])].

(** The row [{"city":"Paris","id":i}]. *)
Definition parisRow (i : nat) : Row :=
  [("city", VString "Paris"); ("id", VNumber (natToString i))].

(** Two sheets of 15 and 10 rows: 25 rows, each naming Paris. *)
Definition twentyFiveRows : DocumentData :=
  [("A", map parisRow (seq 1 15)); ("B", map parisRow (seq 1 10))].

(** A query with a TAB between two words. *)
Definition tabbedQuery : string := "sales" ++ tab ++ "report".




(** 21 sheets of one row each. *)
Definition manySheets : DocumentData :=
  map (fun i => ("S" ++ natToString i, [parisRow i])) (seq 1 21).

(** A sheet of 25 notes. *)
Definition notes : list Row :=
  map (fun i => [("note", VString ("Quarterly Report " ++ natToString i))]) (seq 0 25).

(** A service that throws on its first call, then answers; it reports an
    error for the document with id 11.  The client counts the calls. *)
Definition flakyAnalyze (calls : nat) (documents : list AzureLanguage.Document)
  : Outcome (list AzureLanguage.AnalysisResult) * nat :=
  (if calls =? 0 then Throws "Service Unavailable"
   else Returns
          (map (fun doc =>
                  if String.eqb (AzureLanguage.id doc) "11"
                  then {| AzureLanguage.error := Some "InvalidDocument";
                          AzureLanguage.keyPhrases := None |}
                  else {| AzureLanguage.error := None;
                          AzureLanguage.keyPhrases := Some [AzureLanguage.text doc] |})
               documents),
   S calls).

End Examples.

(** ** Notions used to state further properties *)

Module Variants.

Import ChatInterface.

(** A row with every column name and every string cell in lower case. *)
Definition lowerCaseRow (row : Row) : Row :=
  map (fun kv =>
         (toLowerCase (fst kv),
          match snd kv with
          | VString s => VString (toLowerCase s)
          | other => other
          end))
      row.


(** The words of a text that hold one of the given terms. *)
Definition wordsWith (terms : list string) (text : string) : list string :=
  filter (fun word => existsb (fun term => includes word term) terms)
         (AzureLanguageSentiment.words text).

(** A completions service that answers every request with one choice, the
    content of the last message, and counts the calls. *)
Definition echoCompletions (calls : nat) (messages : list AzureOpenAI.ChatMessage)
  : Outcome (list AzureOpenAI.Choice) * nat :=
  (Returns [{| AzureOpenAI.message :=
                 Some (Some (AzureOpenAI.content
                               (last messages {| AzureOpenAI.role := "";
                                                 AzureOpenAI.content := "" |}))) |}],
   S calls).

(** A proxy that always answers with no hit, and counts the requests. *)
Definition noHits (requests : nat) (url : string) (body : AzureSearchService.Json)
  : AzureSearchService.Settled AzureSearchService.Response * nat :=
  (AzureSearchService.Fulfilled
     {| AzureSearchService.data := Some {| AzureSearchService.value := Some [] |} |},
   S requests).

End Variants.

(** [m] run from [st] returns [a]. *)
Definition returns {St A} (m : Eff St A) (st : St) (a : A) : Prop :=
  fst (m st) = Returns a.

(** * Properties *)

(** ** Strings *)

Section Strings.

Import Chars.

Ltac each_ascii c := destruct c as [[] [] [] [] [] [] [] []].

Lemma append_assoc (a b c : string) : (a ++ b) ++ c = a ++ b ++ c.
Proof. induction a as [|x a IH]; simpl; [reflexivity | now rewrite IH]. Qed.


Lemma toLowerCase_app (a b : string) :
  toLowerCase (a ++ b) = toLowerCase a ++ toLowerCase b.
Proof. induction a as [|x a IH]; simpl; [reflexivity | now rewrite IH]. Qed.


Lemma allChars_app (p : ascii -> bool) (a b : string) :
  allChars p (a ++ b) = allChars p a && allChars p b.
Proof.
  induction a as [|x a IH]; simpl; [reflexivity|].
  now rewrite IH, andb_assoc.
Qed.

Lemma allChars_impl (p q : ascii -> bool) (s : string) :
  (forall c, p c = true -> q c = true) -> allChars p s = true -> allChars q s = true.
Proof.
  intro Hpq. induction s as [|c s IH]; simpl; [reflexivity|].
  intro H. apply andb_true_iff in H as [Hc Hs].
  now rewrite (Hpq c Hc), (IH Hs).
Qed.

Lemma allChars_and (p q : ascii -> bool) (s : string) :
  allChars (fun c => p c && q c) s = allChars p s && allChars q s.
Proof.
  induction s as [|c s IH]; simpl; [reflexivity|].
  rewrite IH. destruct (p c), (q c), (allChars p s), (allChars q s); reflexivity.
Qed.

Lemma startsWith_iff (s k : string) :
  startsWith s k = true <-> exists b, s = k ++ b.
Proof.
  revert s. induction k as [|x k IH]; intro s.
  - destruct s; simpl; split; eauto.
  - destruct s as [|y s]; simpl.
    + split; [discriminate | intros [b Hb]; discriminate].
    + rewrite andb_true_iff, Ascii.eqb_eq, IH. split.
      * intros [-> [b ->]]. now exists b.
      * intros [b Hb]. injection Hb as -> ->. split; [reflexivity | now exists b].
Qed.





(** *** Code units *)

Lemma toLowerCaseChar_idempotent (c : ascii) :
  toLowerCaseChar (toLowerCaseChar c) = toLowerCaseChar c.
Proof. each_ascii c; vm_compute; reflexivity. Qed.

Lemma toLowerCase_idempotent (s : string) : toLowerCase (toLowerCase s) = toLowerCase s.
Proof.
  induction s as [|c s IH]; simpl; [reflexivity|].
  now rewrite toLowerCaseChar_idempotent, IH.
Qed.

Lemma quoteChar_toLowerCase (c : ascii) :
  toLowerCase (quoteChar c) = quoteChar (toLowerCaseChar c).
Proof. each_ascii c; vm_compute; reflexivity. Qed.

Lemma quoteBody_toLowerCase (s : string) :
  toLowerCase (quoteBody s) = quoteBody (toLowerCase s).
Proof.
  induction s as [|c s IH]; cbn [quoteBody toLowerCase]; [reflexivity|].
  now rewrite toLowerCase_app, quoteChar_toLowerCase, IH.
Qed.



End Strings.

(** ** The loops of [findRelevantContent] *)

Section Selector.

Import ChatInterface.

Lemma matches_rowMatches (kws : list string) (row : Row) :
  (0 <? List.length (matches kws row)) = Spec.rowMatches kws row.
Proof.
  unfold matches, Spec.rowMatches.
  generalize (rowStr row) as s. intro s.
  induction kws as [|k kws IH]; cbn [filter existsb]; [reflexivity|].
  destruct (includes s k); [reflexivity | exact IH].
Qed.

Lemma rows_loop (kws : list string) (sheetName : string) (rows : list Row) :
  forall (i : nat) (acc : list string),
    forEachFrom i
      (fun relevantContent row rowIndex =>
         if 0 <? List.length (matches kws row)
         then (relevantContent ++ [fromSheet sheetName rowIndex row])%list
         else relevantContent)
      rows acc
    = (acc ++ Spec.sheetSnippets kws sheetName i rows)%list.
Proof.
  induction rows as [|row rows IH]; intros i acc;
    cbn [forEachFrom Spec.sheetSnippets].
  - now rewrite app_nil_r.
  - rewrite IH, matches_rowMatches.
    destruct (Spec.rowMatches kws row).
    + now rewrite <- app_assoc.
    + reflexivity.
Qed.

Lemma collectMatches_spec (kws : list string) (documentData : DocumentData) :
  forall acc, collectMatches kws documentData acc
              = (acc ++ Spec.matchedSnippets kws documentData)%list.
Proof.
  unfold collectMatches, forEach, entries, Spec.matchedSnippets.
  generalize 0 at 1.
  induction documentData as [|[name rows] D IH]; intros i acc;
    cbn [forEachFrom flat_map fst snd].
  - now rewrite app_nil_r.
  - rewrite IH, rows_loop. now rewrite <- app_assoc.
Qed.

Lemma collectSamples_spec (documentData : DocumentData) :
  forall acc, collectSamples documentData acc
              = (acc ++ Spec.sampleFallback documentData)%list.
Proof.
  unfold collectSamples, forEach, entries, Spec.sampleFallback.
  generalize 0.
  induction documentData as [|[name rows] D IH]; intros i acc;
    cbn [forEachFrom flat_map fst snd].
  - now rewrite app_nil_r.
  - rewrite IH. destruct rows.
    + reflexivity.
    + now rewrite <- app_assoc.
Qed.

(** The code computes [Spec.selectContext], from any console. *)
Lemma findRelevantContent_spec (documentData : DocumentData) (query : string)
      (console : Console.Log) :
  returns (findRelevantContent documentData query) console
          (Spec.selectContext (keywords query) documentData).
Proof.
  unfold returns, findRelevantContent, Spec.selectContext, bind, log, ret, slice.
  rewrite collectMatches_spec. cbn [app skipn Nat.sub].
  destruct (20 <? _) eqn:Hcap; cbn [fst].
  - reflexivity.
  - destruct (Spec.matchedSnippets _ _) eqn:Hm; cbn [List.length Nat.eqb fst].
    + now rewrite collectSamples_spec.
    + reflexivity.
Qed.

End Selector.

(** ** The result of the selector *)

Section SelectorResult.

Import ChatInterface.

Lemma returns_inj {St A} (m : Eff St A) (st : St) (a b : A) :
  returns m st a -> returns m st b -> a = b.
Proof. unfold returns. intros Ha Hb. rewrite Ha in Hb. now injection Hb. Qed.

Lemma sheetSnippets_nil_keywords (sheetName : string) (rows : list Row) :
  forall i, Spec.sheetSnippets [] sheetName i rows = [].
Proof. induction rows as [|row rows IH]; intro i; simpl; auto. Qed.

Lemma matchedSnippets_nil_keywords (documentData : DocumentData) :
  Spec.matchedSnippets [] documentData = [].
Proof.
  unfold Spec.matchedSnippets.
  induction documentData as [|sheet D IH]; cbn [flat_map]; [reflexivity|].
  now rewrite sheetSnippets_nil_keywords, IH.
Qed.

Lemma sheetSnippets_length (kws : list string) (sheetName : string) (rows : list Row) :
  forall i, List.length (Spec.sheetSnippets kws sheetName i rows) <= List.length rows.
Proof.
  induction rows as [|row rows IH]; intro i; cbn [Spec.sheetSnippets List.length].
  - lia.
  - rewrite length_app. specialize (IH (S i)).
    destruct (Spec.rowMatches kws row); cbn [List.length]; lia.
Qed.

Lemma sampleFallback_map (documentData : DocumentData) :
  Spec.sampleFallback documentData
  = map (fun sheet => sampleFromSheet (fst sheet) (hd [] (snd sheet)))
        (Spec.nonEmptySheets documentData).
Proof.
  unfold Spec.sampleFallback, Spec.nonEmptySheets.
  induction documentData as [|[name rows] D IH]; cbn [flat_map filter fst snd].
  - reflexivity.
  - destruct rows; cbn [List.length Nat.eqb negb map hd fst snd app]; now rewrite IH.
Qed.

Lemma sampleFallback_length (documentData : DocumentData) :
  List.length (Spec.sampleFallback documentData)
  = List.length (Spec.nonEmptySheets documentData).
Proof. now rewrite sampleFallback_map, length_map. Qed.

Lemma nonEmptySheets_nil (documentData : DocumentData) :
  Spec.nonEmptySheets documentData = [] <->
  (forall sheet, In sheet documentData -> snd sheet = []).
Proof.
  unfold Spec.nonEmptySheets.
  induction documentData as [|[name rows] D IH]; cbn [filter snd].
  - split; [intros _ sheet [] | reflexivity].
  - destruct rows as [|row rows]; cbn [List.length Nat.eqb negb].
    + rewrite IH. split.
      * intros H sheet [<- | Hin]; [reflexivity | now apply H].
      * intros H sheet Hin. apply H. now right.
    + split; [discriminate|].
      intros H. specialize (H (name, row :: rows) (or_introl eq_refl)). discriminate.
Qed.

Lemma matchedSnippets_no_rows (kws : list string) (documentData : DocumentData) :
  Spec.nonEmptySheets documentData = [] -> Spec.matchedSnippets kws documentData = [].
Proof.
  rewrite nonEmptySheets_nil. unfold Spec.matchedSnippets.
  induction documentData as [|[name rows] D IH]; intro H; cbn [flat_map fst snd].
  - reflexivity.
  - rewrite (H (name, rows) (or_introl eq_refl) : rows = []).
    cbn [Spec.sheetSnippets app]. apply IH. intros sheet Hin. apply H. now right.
Qed.

Lemma selectContext_nil (kws : list string) (documentData : DocumentData) :
  Spec.selectContext kws documentData = [] <-> Spec.nonEmptySheets documentData = [].
Proof.
  unfold Spec.selectContext. split.
  - destruct (20 <? _) eqn:Hcap.
    + apply Nat.ltb_lt in Hcap. intro H.
      assert (Hl : List.length (firstn 20 (Spec.matchedSnippets kws documentData)) = 20)
        by (rewrite length_firstn; lia).
      rewrite H in Hl. discriminate.
    + destruct (Spec.matchedSnippets kws documentData) eqn:Hm; [|discriminate].
      intro H. apply length_zero_iff_nil. rewrite <- sampleFallback_length, H. reflexivity.
  - intro H. rewrite (matchedSnippets_no_rows kws _ H). cbn [List.length Nat.ltb Nat.leb].
    apply length_zero_iff_nil. now rewrite sampleFallback_length, H.
Qed.

Lemma selectContext_length (kws : list string) (documentData : DocumentData) :
  List.length (Spec.selectContext kws documentData)
  <= Nat.max 20 (List.length (Spec.nonEmptySheets documentData)).
Proof.
  unfold Spec.selectContext.
  destruct (20 <? _) eqn:Hcap.
  - rewrite length_firstn. lia.
  - apply Nat.ltb_ge in Hcap.
    destruct (Spec.matchedSnippets kws documentData) eqn:Hm.
    + rewrite sampleFallback_length. lia.
    + lia.
Qed.

End SelectorResult.

(** ** Claims about the selector *)

Section SelectorClaims.

Import ChatInterface Examples.

(** C2, as stated, fails: the dataset with one sheet and no rows is not
    empty, and the selector returns the empty sequence for it. *)
Lemma C2_one_empty_sheet_gives_nothing :
  emptySheet <> [] /\ returns (findRelevantContent emptySheet "weather in Paris") [] [].
Proof. split; [discriminate | reflexivity]. Qed.

(** C2, amended.  The selector returns the empty sequence for the empty
    dataset, and its result is empty exactly when no sheet of the dataset has
    a row: a dataset with a sheet that has a row gives a non-empty result for
    every query. *)
Theorem C2_empty_result_iff_no_rows :
  forall (documentData : DocumentData) (query : string) (console : Console.Log),
    returns (findRelevantContent [] query) console []
    /\ exists result,
        returns (findRelevantContent documentData query) console result
        /\ (result = [] <-> forall sheet, In sheet documentData -> snd sheet = []).
Proof.
  intros D q console. split.
  - apply (findRelevantContent_spec [] q console).
  - exists (Spec.selectContext (keywords q) D). split.
    + apply findRelevantContent_spec.
    + rewrite selectContext_nil. apply nonEmptySheets_nil.
Qed.

(** The sheet of the examples has a row: its result for "xyz" is not empty. *)
Lemma C2_empty_result_iff_no_rows_witness :
  exists result,
    returns (findRelevantContent sheet1 "xyz") [] result /\ result <> [].
Proof.
  destruct (C2_empty_result_iff_no_rows sheet1 "xyz" []) as [_ [result [Hr Hiff]]].
  exists result. split; [exact Hr|].
  intro Hnil. apply Hiff with (sheet := hd ("", []) sheet1) in Hnil.
  - discriminate Hnil.
  - left. reflexivity.
Defined.

(** C3.  When more than 20 rows match, the selector returns the first 20
    matched snippets in sheet order, then row order; its result is never
    longer than max(20, number of sheets with a row); 25 matching rows give
    exactly the first 20 of them, and in two sheets of 15 and 10 rows these
    are the 15 of the first sheet and the first 5 of the second. *)
Theorem C3_prefix_truncation :
  (forall (documentData : DocumentData) (query : string) (console : Console.Log),
      20 < List.length (Spec.matchedSnippets (keywords query) documentData) ->
      returns (findRelevantContent documentData query) console
              (firstn 20 (Spec.matchedSnippets (keywords query) documentData)))
  /\ (forall (documentData : DocumentData) (query : string) (console : Console.Log) result,
         returns (findRelevantContent documentData query) console result ->
         List.length result
         <= Nat.max 20 (List.length (Spec.nonEmptySheets documentData)))
  /\ (forall (documentData : DocumentData) (query : string) (console : Console.Log),
         List.length (Spec.matchedSnippets (keywords query) documentData) = 25 ->
         exists result,
           returns (findRelevantContent documentData query) console result
           /\ result = firstn 20 (Spec.matchedSnippets (keywords query) documentData)
           /\ List.length result = 20)
  /\ (forall console : Console.Log,
         List.length (Spec.matchedSnippets (keywords "Paris") twentyFiveRows) = 25
         /\ returns (findRelevantContent twentyFiveRows "Paris") console
                    (map (fun i => fromSheet "A" i (parisRow (i + 1))) (seq 0 15)
                       ++ map (fun i => fromSheet "B" i (parisRow (i + 1))) (seq 0 5))%list).
Proof.
  assert (Hcut : forall (D : DocumentData) (q : string) (console : Console.Log),
             20 < List.length (Spec.matchedSnippets (keywords q) D) ->
             returns (findRelevantContent D q) console
                     (firstn 20 (Spec.matchedSnippets (keywords q) D))).
  { intros D q console Hlen.
    pose proof (findRelevantContent_spec D q console) as H.
    unfold Spec.selectContext in H. apply Nat.ltb_lt in Hlen. now rewrite Hlen in H. }
  split; [exact Hcut|]. split; [|split].
  - intros D q console result Hr.
    rewrite (returns_inj _ _ _ _ Hr (findRelevantContent_spec D q console)).
    apply selectContext_length.
  - intros D q console Hlen. eexists. split; [apply Hcut; lia|].
    split; [reflexivity|]. rewrite length_firstn, Hlen. reflexivity.
  - intro console. split; [vm_compute; reflexivity|].
    pose proof (findRelevantContent_spec twentyFiveRows "Paris" console) as H.
    unfold returns in *. rewrite H. vm_compute. reflexivity.
Qed.

(** The 25 matching rows: the result is the first 20 matched snippets. *)
Lemma C3_prefix_truncation_witness :
  returns (findRelevantContent twentyFiveRows "Paris") []
          (firstn 20 (Spec.matchedSnippets (keywords "Paris") twentyFiveRows))
  /\ List.length (firstn 20 (Spec.matchedSnippets (keywords "Paris") twentyFiveRows))
     <= Nat.max 20 (List.length (Spec.nonEmptySheets twentyFiveRows)).
Proof.
  destruct C3_prefix_truncation as [Hcut [Hlen _]].
  assert (H : returns (findRelevantContent twentyFiveRows "Paris") []
                (firstn 20 (Spec.matchedSnippets (keywords "Paris") twentyFiveRows))).
  { apply Hcut. vm_compute. lia. }
  split; [exact H | exact (Hlen _ _ _ _ H)].
Defined.

(** C4.  When no row matches, and so whenever the query has no keyword, the
    selector returns the sample fallback: for every sheet that has a row, in
    sheet order, the snippet [[Sample from sheet "<sheetName>"]: ...] of its
    first row; sheets without rows give nothing, and the 20-snippet cap does
    not apply (21 one-row sheets give 21 snippets). *)
Theorem C4_sample_fallback :
  (forall (documentData : DocumentData) (query : string) (console : Console.Log),
      (Spec.matchedSnippets (keywords query) documentData = [] \/ keywords query = []) ->
      returns (findRelevantContent documentData query) console
              (map (fun sheet =>
                      "[Sample from sheet " ++ dquote ++ fst sheet ++ dquote ++ "]: "
                        ++ formattedRow (hd [] (snd sheet)))
                   (filter (fun sheet => negb (List.length (snd sheet) =? 0))
                           documentData)))
  /\ (forall console : Console.Log,
         returns (findRelevantContent sheet1 "xyz") console
                 ["[Sample from sheet " ++ dquote ++ "Sheet1" ++ dquote
                    ++ "]: city: Paris, note: nice weather"])
  /\ (forall console : Console.Log,
         exists result,
           returns (findRelevantContent manySheets "xyz") console result
           /\ List.length result = 21).
Proof.
  split; [|split].
  - intros D q console Hnone.
    assert (Hm : Spec.matchedSnippets (keywords q) D = []).
    { destruct Hnone as [H | H]; [exact H|].
      rewrite H. apply matchedSnippets_nil_keywords. }
    pose proof (findRelevantContent_spec D q console) as H.
    unfold Spec.selectContext in H. rewrite Hm in H. cbn [List.length Nat.ltb Nat.leb] in H.
    rewrite sampleFallback_map in H. exact H.
  - intro console.
    pose proof (findRelevantContent_spec sheet1 "xyz" console) as H.
    unfold returns in *. rewrite H. vm_compute. reflexivity.
  - intro console. eexists. split.
    + apply findRelevantContent_spec.
    + vm_compute. reflexivity.
Qed.

(** The query "in" has no keyword: the result is the sample of Sheet1. *)
Lemma C4_sample_fallback_witness :
  returns (findRelevantContent sheet1 "in") []
          ["[Sample from sheet " ++ dquote ++ "Sheet1" ++ dquote
             ++ "]: city: Paris, note: nice weather"].
Proof.
  destruct C4_sample_fallback as [H _].
  apply (H sheet1 "in" []). right. vm_compute. reflexivity.
Defined.

(** C5.  For [{"Sheet1": [{"city":"Paris","note":"nice weather"}]}] and the
    query "weather in Paris" the keywords are weather and paris, one row
    matches, and the result is the single snippet
    [[From sheet "Sheet1", row 1]: city: Paris, note: nice weather]: the
    lowercase keyword paris matched the cell Paris, which is printed with its
    capital.  The case of the query does not matter either. *)
Theorem C5_weather_in_Paris :
  keywords "weather in Paris" = ["weather"; "paris"]
  /\ List.length
       (filter (fun row => 0 <? List.length (matches (keywords "weather in Paris") row))
               (flat_map snd sheet1)) = 1
  /\ (forall console : Console.Log,
         returns (findRelevantContent sheet1 "weather in Paris") console
                 ["[From sheet " ++ dquote ++ "Sheet1" ++ dquote
                    ++ ", row 1]: city: Paris, note: nice weather"])
  /\ (forall console : Console.Log,
         returns (findRelevantContent sheet1 "WEATHER IN PARIS") console
                 ["[From sheet " ++ dquote ++ "Sheet1" ++ dquote
                    ++ ", row 1]: city: Paris, note: nice weather"]).
Proof.
  split; [vm_compute; reflexivity|].
  split; [vm_compute; reflexivity|].
  split; intro console.
  - pose proof (findRelevantContent_spec sheet1 "weather in Paris" console) as H.
    unfold returns in *. rewrite H. vm_compute. reflexivity.
  - pose proof (findRelevantContent_spec sheet1 "WEATHER IN PARIS" console) as H.
    unfold returns in *. rewrite H. vm_compute. reflexivity.
Qed.

(** C6.  The selector is deterministic: a call returns (it never throws),
    a second call after it, on the console the first one left, returns the
    same sequence, and so does a call from any other console; that sequence
    is the matches in sheet order, then row order, cut to 20, or the sample
    fallback when nothing matched. *)
Theorem C6_deterministic :
  forall (documentData : DocumentData) (query : string) (console other : Console.Log),
  exists result console1 console2,
    findRelevantContent documentData query console = (Returns result, console1)
    /\ findRelevantContent documentData query console1 = (Returns result, console2)
    /\ returns (findRelevantContent documentData query) other result
    /\ result = Spec.selectContext (keywords query) documentData.
Proof.
  intros D q console other.
  pose proof (findRelevantContent_spec D q console) as H1. unfold returns in H1.
  destruct (findRelevantContent D q console) as [r1 c1] eqn:E1.
  pose proof (findRelevantContent_spec D q c1) as H2. unfold returns in H2.
  destruct (findRelevantContent D q c1) as [r2 c2] eqn:E2.
  cbn [fst] in H1, H2. subst r1 r2.
  exists (Spec.selectContext (keywords q) D), c1, c2.
  split; [reflexivity|]. split; [exact E2|].
  split; [apply findRelevantContent_spec | reflexivity].
Qed.

End SelectorClaims.

(** ** The keywords of the selector and the phrases of the search extractor *)

Section Keywords.

Import Chars Examples.

Lemma split_allChars (p : ascii -> bool) (sep : ascii) (s : string) :
  allChars p s = true -> Forall (fun w => allChars p w = true) (split sep s).
Proof.
  induction s as [|c s IH]; cbn [split allChars].
  - intros _. constructor; [reflexivity | constructor].
  - rewrite andb_true_iff. intros [Hc Hs]. specialize (IH Hs).
    destruct (Ascii.eqb c sep).
    + constructor; [reflexivity | exact IH].
    + destruct (split sep s) as [|w ws].
      * constructor; [cbn [allChars]; now rewrite Hc | constructor].
      * inversion IH as [|? ? Hw Hws]; subst.
        constructor; [cbn [allChars]; now rewrite Hc, Hw | exact Hws].
Qed.

Lemma split_no_separator (sep : ascii) (s : string) :
  Forall (fun w => allChars (fun c => negb (Ascii.eqb c sep)) w = true) (split sep s).
Proof.
  induction s as [|c s IH]; cbn [split].
  - constructor; [reflexivity | constructor].
  - destruct (Ascii.eqb c sep) eqn:Hc.
    + constructor; [reflexivity | exact IH].
    + destruct (split sep s) as [|w ws].
      * constructor; [cbn [allChars]; now rewrite Hc | constructor].
      * inversion IH as [|? ? Hw Hws]; subst.
        constructor; [cbn [allChars]; now rewrite Hc, Hw | exact Hws].
Qed.

Lemma replaceAll_allChars (p cls : ascii -> bool) (r s : string) :
  allChars p r = true ->
  allChars (fun c => cls c || p c) s = true ->
  allChars p (replaceAll cls r s) = true.
Proof.
  intro Hr. induction s as [|c s IH]; cbn [replaceAll allChars]; [reflexivity|].
  rewrite andb_true_iff. intros [Hc Hs]. specialize (IH Hs).
  destruct (cls c); cbn [orb] in Hc.
  - now rewrite allChars_app, Hr, IH.
  - cbn [allChars]. now rewrite Hc, IH.
Qed.

Lemma toLowerCase_fixed (s : string) :
  allChars (fun c => Ascii.eqb (toLowerCaseChar c) c) (toLowerCase s) = true.
Proof.
  induction s as [|c s IH]; cbn [toLowerCase allChars]; [reflexivity|].
  now rewrite toLowerCaseChar_idempotent, Ascii.eqb_refl, IH.
Qed.

Lemma allChars_fixed_toLowerCase (s : string) :
  allChars (fun c => Ascii.eqb (toLowerCaseChar c) c) s = true -> toLowerCase s = s.
Proof.
  induction s as [|c s IH]; cbn [toLowerCase allChars]; [reflexivity|].
  rewrite andb_true_iff, Ascii.eqb_eq. intros [-> Hs]. now rewrite (IH Hs).
Qed.

(** Every code unit of every keyword is a lowercase word character or white
    space other than the space. *)
Lemma keywords_chars (query : string) :
  Forall (fun k => allChars isKeywordChar k = true) (ChatInterface.keywords query).
Proof.
  unfold ChatInterface.keywords.
  set (blank := replaceAll _ _ _).
  assert (Hblank : allChars (fun c => (isWordChar c || isSpace c)
                                      && Ascii.eqb (toLowerCaseChar c) c) blank = true).
  { apply replaceAll_allChars; [reflexivity|].
    eapply allChars_impl; [|apply toLowerCase_fixed].
    intros c Hc. cbn beta. rewrite Hc.
    destruct (isWordChar c || isSpace c); reflexivity. }
  rewrite Forall_forall. intros k Hk. apply filter_In in Hk as [Hk _].
  pose proof (split_allChars _ " "%char _ Hblank) as H1.
  pose proof (split_no_separator " "%char blank) as H2.
  rewrite Forall_forall in H1, H2. specialize (H1 k Hk). specialize (H2 k Hk).
  unfold isKeywordChar.
  assert (H : allChars (fun c => ((isWordChar c || isSpace c)
                                  && Ascii.eqb (toLowerCaseChar c) c)
                                 && negb (Ascii.eqb c " ")) k = true)
    by now rewrite allChars_and, H1, H2.
  eapply allChars_impl; [|exact H].
  intros c. cbn beta.
  destruct (isWordChar c || isSpace c), (Ascii.eqb (toLowerCaseChar c) c),
    (Ascii.eqb c " "); auto.
Qed.

Lemma keyword_noSpace (k : string) : allChars isKeywordChar k = true -> noSpace k = true.
Proof.
  apply allChars_impl. intro c. unfold isKeywordChar.
  rewrite !andb_true_iff. tauto.
Qed.

Lemma keyword_toLowerCase (k : string) :
  allChars isKeywordChar k = true -> toLowerCase k = k.
Proof.
  intro H. apply allChars_fixed_toLowerCase. revert H.
  apply allChars_impl. intro c. unfold isKeywordChar.
  rewrite !andb_true_iff. tauto.
Qed.

(** *** [Set] *)

Lemma arrayIncludes_In (arr : list string) (x : string) :
  arrayIncludes arr x = true <-> In x arr.
Proof.
  unfold arrayIncludes. rewrite existsb_exists. split.
  - intros [y [Hy Heq]]. apply String.eqb_eq in Heq. now subst.
  - intro H. exists x. split; [exact H | apply String.eqb_refl].
Qed.

Lemma SetAdd_spec (set : list string) (x : string) :
  NoDup set ->
  NoDup (SetAdd set x) /\ forall y, In y (SetAdd set x) <-> In y set \/ y = x.
Proof.
  intro Hnd. unfold SetAdd. destruct (arrayIncludes set x) eqn:Hin.
  - apply arrayIncludes_In in Hin. split; [exact Hnd|].
    intro y. split; [now left | intros [H | ->]; assumption].
  - assert (Hnot : ~ In x set).
    { intro H. apply arrayIncludes_In in H. congruence. }
    split.
    + apply NoDup_app; [exact Hnd | repeat constructor; intros [] |].
      intros y Hy [<- | []]. contradiction.
    + intro y. rewrite in_app_iff. cbn [In]. intuition congruence.
Qed.

Lemma fold_SetAdd_spec (arr set : list string) :
  NoDup set ->
  NoDup (fold_left SetAdd arr set)
  /\ forall y, In y (fold_left SetAdd arr set) <-> In y set \/ In y arr.
Proof.
  revert set. induction arr as [|x arr IH]; intros set Hnd; cbn [fold_left].
  - split; [exact Hnd|]. intro y. cbn [In]. tauto.
  - destruct (SetAdd_spec set x Hnd) as [Hnd' Hin'].
    destruct (IH _ Hnd') as [Hnd'' Hin'']. split; [exact Hnd''|].
    intro y. rewrite Hin'', Hin'. cbn [In]. intuition congruence.
Qed.

Lemma SetFrom_spec (arr : list string) :
  NoDup (SetFrom arr) /\ forall y, In y (SetFrom arr) <-> In y arr.
Proof.
  destruct (fold_SetAdd_spec arr [] (NoDup_nil _)) as [Hnd Hin].
  split; [exact Hnd|]. intro y. unfold SetFrom. rewrite Hin. cbn [In]. tauto.
Qed.

(** *** Phrases *)






End Keywords.

(** ** Queries whose only white space is the space *)

Section SpaceSeparated.

Import Chars.

Lemma toLowerCaseChar_space (c : ascii) :
  (negb (isSpace c) || Ascii.eqb c " ") = true ->
  (negb (isSpace (toLowerCaseChar c)) || Ascii.eqb (toLowerCaseChar c) " ") = true.
Proof.
  destruct c as [[] [] [] [] [] [] [] []]; vm_compute; intro H; exact H || reflexivity.
Qed.

Lemma toLowerCase_spaceSeparated (s : string) :
  spaceSeparated s = true -> spaceSeparated (toLowerCase s) = true.
Proof.
  unfold spaceSeparated.
  induction s as [|c s IH]; cbn [toLowerCase allChars]; [reflexivity|].
  rewrite !andb_true_iff. intros [Hc Hs].
  split; [now apply toLowerCaseChar_space | now apply IH].
Qed.

Lemma blanked_spaceSeparated (cls : ascii -> bool) (s : string) :
  spaceSeparated s = true -> spaceSeparated (replaceAll cls " " s) = true.
Proof.
  intro H. unfold spaceSeparated. apply replaceAll_allChars; [reflexivity|].
  revert H. apply allChars_impl. intros c Hc. rewrite Hc. apply orb_true_r.
Qed.

(** On such a string the two ways of splitting differ by empty tokens only. *)
Lemma split_splitWhitespace (f : string -> bool) (s : string) :
  f "" = false -> spaceSeparated s = true ->
  exists h t t',
    split " " s = h :: t /\ splitWhitespace s = h :: t' /\ filter f t = filter f t'.
Proof.
  intros Hf. unfold spaceSeparated.
  induction s as [|c s IH]; cbn [allChars].
  - intros _. exists "", [], []. repeat split.
  - rewrite andb_true_iff. intros [Hc Hs].
    destruct (IH Hs) as [h [t [t' [Hsplit [Hws Hfilter]]]]].
    cbn [split splitWhitespace]. rewrite Hsplit, Hws.
    destruct (Ascii.eqb c " ") eqn:Hsp.
    + apply Ascii.eqb_eq in Hsp. subst c.
      change (isSpace " ") with true. cbv iota.
      destruct s as [|c' s'].
      * exists "", (h :: t), (h :: t'). cbn [filter]. rewrite Hfilter. repeat split.
      * destruct (isSpace c') eqn:Hc'.
        -- cbn [allChars] in Hs. apply andb_true_iff in Hs as [Hs _].
           rewrite Hc' in Hs. cbn [negb orb] in Hs.
           cbn [split] in Hsplit. rewrite Hs in Hsplit. injection Hsplit as <- Ht.
           exists "", ("" :: t), t'. cbn [filter]. rewrite Hf. repeat split. exact Hfilter.
        -- exists "", (h :: t), (h :: t'). cbn [filter]. rewrite Hfilter. repeat split.
    + rewrite orb_false_r in Hc. apply negb_true_iff in Hc. rewrite Hc.
      exists (String c h), t, t'. repeat split. exact Hfilter.
Qed.

(** On such a query the code has the keywords of the specification. *)
Lemma keywords_agree (query : string) :
  spaceSeparated query = true -> ChatInterface.keywords query = Spec.keywords query.
Proof.
  intro H. unfold ChatInterface.keywords, Spec.keywords.
  set (keep := fun word => (2 <? String.length word)
                           && negb (arrayIncludes ChatInterface.stopWords word)).
  rewrite (filter_ext (fun token => negb (String.length token <=? 2)
                                    && negb (arrayIncludes ChatInterface.stopWords token))
                      keep).
  - destruct (split_splitWhitespace keep
                (replaceAll (fun c => negb (isWordChar c || isSpace c)) " "
                            (toLowerCase query)))
      as [h [t [t' [Hsplit [Hws Hfilter]]]]].
    + reflexivity.
    + apply blanked_spaceSeparated, toLowerCase_spaceSeparated, H.
    + rewrite Hsplit, Hws. cbn [filter]. now rewrite Hfilter.
  - intro token. unfold keep. f_equal.
    rewrite Nat.ltb_antisym. reflexivity.
Qed.

End SpaceSeparated.

(** ** Claims about keywords, phrases and column names *)

Section KeywordClaims.

Import Chars Examples ChatInterface.

(** C1.  The code splits the blanked query on the space only, where the
    specification splits on white space: a TAB between two words does not
    separate them.  For "sales<TAB>report" the code has the one keyword
    "sales<TAB>report"; the specification has sales and report. *)
Theorem C1_tab_does_not_separate :
  keywords tabbedQuery = [tabbedQuery]
  /\ Spec.keywords tabbedQuery = ["sales"; "report"].
Proof. split; vm_compute; reflexivity. Qed.










End KeywordClaims.

(** ** Key-phrase extraction *)

Section KeyPhrases.

Import AzureLanguage KeyPhraseExtraction KeyPhraseSpec Examples.

Lemma forEachFrom_invariant {A St} (P : St -> Prop) (body : St -> A -> nat -> St) :
  (forall acc x i, P acc -> P (body acc x i)) ->
  forall arr i acc, P acc -> P (forEachFrom i body arr acc).
Proof.
  intros Hbody arr. induction arr as [|x arr IH]; intros i acc Hacc; cbn [forEachFrom].
  - exact Hacc.
  - apply IH, Hbody, Hacc.
Qed.

Lemma SetAdd_NoDup (set : list string) (x : string) : NoDup set -> NoDup (SetAdd set x).
Proof. intro H. apply (SetAdd_spec set x H). Qed.

Lemma NoDup_slice {A} (i j : nat) (arr : list A) : NoDup arr -> NoDup (slice i j arr).
Proof.
  intro H. unfold slice.
  assert (Hs : NoDup (skipn i arr)).
  { rewrite <- (firstn_skipn i arr) in H. eapply NoDup_app_remove_l, H. }
  rewrite <- (firstn_skipn (j - i) (skipn i arr)) in Hs.
  eapply NoDup_app_remove_r, Hs.
Qed.

(** The mock list has no duplicates and at most 10 phrases. *)
Lemma getMockKeyPhrases_bounds (text : string) :
  List.length (getMockKeyPhrases text) <= 10 /\ NoDup (getMockKeyPhrases text).
Proof.
  unfold getMockKeyPhrases. split.
  - unfold slice. rewrite length_firstn. cbn [Nat.sub]. lia.
  - apply NoDup_slice.
    set (first := forEach _ _ _).
    assert (Hfirst : NoDup first).
    { unfold first, forEach. apply forEachFrom_invariant; [|constructor].
      intros acc word i Hacc.
      destruct (_ && arrayIncludes _ _);
        destruct (_ && _ && _); repeat apply SetAdd_NoDup; exact Hacc. }
    destruct (List.length first =? 0); [|exact Hfirst].
    unfold forEach. apply forEachFrom_invariant; [|exact Hfirst].
    intros acc word i Hacc. destruct (6 <? _); [apply SetAdd_NoDup|]; exact Hacc.
Qed.

(** *** [trim] *)

Lemma trimEnd_idempotent (s : string) : trimEnd (trimEnd s) = trimEnd s.
Proof.
  induction s as [|c s IH]; cbn [trimEnd]; [reflexivity|].
  destruct (trimEnd s) as [|d t] eqn:Ht.
  - destruct (isSpace c) eqn:Hc; cbn [trimEnd]; [reflexivity | now rewrite Hc].
  - cbn [trimEnd] in *. now rewrite IH.
Qed.

Lemma trimStart_head (s : string) :
  match trimStart s with
  | EmptyString => True
  | String c _ => isSpace c = false
  end.
Proof.
  induction s as [|c s IH]; cbn [trimStart]; [exact I|].
  destruct (isSpace c) eqn:Hc; [exact IH | exact Hc].
Qed.

Lemma trim_idempotent (s : string) : trim (trim s) = trim s.
Proof.
  unfold trim. pose proof (trimStart_head s) as Hhead.
  destruct (trimStart s) as [|c t]; [reflexivity|].
  assert (Hfix : trimStart (trimEnd (String c t)) = trimEnd (String c t)).
  { cbn [trimEnd]. destruct (trimEnd t); rewrite ?Hhead; cbn [trimStart];
      now rewrite Hhead. }
  rewrite Hfix. apply trimEnd_idempotent.
Qed.

(** *** The documents of a batch are all sent *)

Lemma filter_all {A} (p : A -> bool) (l : list A) : forallb p l = true -> filter p l = l.
Proof.
  induction l as [|x l IH]; cbn [forallb filter]; [reflexivity|].
  rewrite andb_true_iff. intros [Hx Hl]. now rewrite Hx, (IH Hl).
Qed.

Lemma mapFrom_Forall {A B} (P : B -> Prop) (f : A -> nat -> B) :
  (forall x i, P (f x i)) -> forall arr i, Forall P (mapFrom i f arr).
Proof.
  intros Hf arr. induction arr as [|x arr IH]; intro i; cbn [mapFrom]; constructor; auto.
Qed.

Lemma documents_valid (columnsToUse : list string) (i : nat) (batch : list Row) :
  forallb isValid (documents columnsToUse i batch) = true.
Proof.
  apply forallb_forall. intros doc Hdoc. unfold documents in Hdoc.
  apply filter_In in Hdoc as [Hin Hlen].
  assert (Htrim : trim (text doc) = text doc).
  { eapply (proj1 (Forall_forall (fun doc => trim (text doc) = text doc) _)); [|exact Hin].
    unfold mapIndexed. apply mapFrom_Forall.
    intros row index. cbn [text]. apply trim_idempotent. }
  unfold isValid. rewrite Htrim, Hlen, andb_true_r.
  destruct (text doc); [discriminate Hlen | reflexivity].
Qed.

Section Service.

Variable Client : Type.
Variable analyze : Client -> list Document -> Outcome (list AnalysisResult) * Client.

(** The loop over the results collects the phrases of every result without
    an error, and leaves the client alone. *)
Lemma results_loop (results : list AnalysisResult) :
  forall (acc : list string) (w : World Client),
  exists w',
    forOf (fun keyPhrases result =>
             match AzureLanguage.error result, AzureLanguage.keyPhrases result with
             | None, Some phrases => ret (keyPhrases ++ phrases)%list
             | Some message, _ =>
                 bind (log [Console.Text ("Error in key phrase extraction: " ++ message)])
                      (fun _ => ret keyPhrases)
             | None, None => ret keyPhrases
             end)
          results acc w
    = (Returns (acc ++ successfulPhrases results)%list, w')
    /\ client w' = client w.
Proof.
  induction results as [|result results IH]; intros acc w;
    cbn [forOf successfulPhrases flat_map].
  - exists w. now rewrite app_nil_r.
  - fold (successfulPhrases results). unfold bind at 1.
    destruct (AzureLanguage.error result) as [message|];
      [|destruct (AzureLanguage.keyPhrases result) as [phrases|]].
    + unfold bind at 1, log, ret. cbn [app].
      destruct (IH acc {| client := client w;
                          console := (console w ++
                            [[Console.Text ("Error in key phrase extraction: " ++ message)]])%list |})
        as [w' [Hw' Hc]].
      exists w'. split; [exact Hw' | exact Hc].
    + unfold ret at 1. destruct (IH (acc ++ phrases)%list w) as [w' [Hw' Hc]].
      exists w'. rewrite Hw', <- app_assoc. split; [reflexivity | exact Hc].
    + unfold ret at 1. cbn [app]. apply IH.
Qed.

(** [extractKeyPhrases] never throws. *)
Lemma extractKeyPhrases_returns (hasCredentials : bool) (input : Input) (w : World Client) :
  exists phrases w',
    extractKeyPhrases analyze hasCredentials input w = (Returns phrases, w').
Proof.
  unfold extractKeyPhrases, tryCatch.
  match goal with |- context [match ?body w with _ => _ end] => destruct (body w) as [[phrases|e] w1] end.
  - now exists phrases, w1.
  - unfold bind, log, ret. eauto.
Qed.

(** With credentials, a batch of valid documents is submitted as it is. *)
Lemma extractKeyPhrases_batch (batch : list Document) (w : World Client) :
  forallb isValid batch = true -> batch <> [] ->
  exists w',
    extractKeyPhrases analyze true (InDocuments batch) w
    = (Returns (fst (batchOutcome analyze (client w) batch)), w')
    /\ client w' = snd (batchOutcome analyze (client w) batch).
Proof.
  intros Hvalid Hne.
  unfold extractKeyPhrases, tryCatch. cbn [negb].
  change (filter _ batch) with (filter isValid batch). rewrite (filter_all _ _ Hvalid).
  destruct batch as [|doc batch]; [contradiction|].
  cbn [List.length Nat.eqb].
  unfold bind at 1, clientAnalyze, batchOutcome.
  destruct (analyze (client w) (doc :: batch)) as [[results|e] c'].
  - destruct (results_loop results [] {| client := c'; console := console w |})
      as [w' [Hw' Hc]].
    rewrite Hw'. exists w'. cbn [fst snd app]. split; [reflexivity | exact Hc].
  - unfold bind, log, ret. cbn [fst snd]. eexists. split; reflexivity.
Qed.

(** The batch loop submits every batch, whatever the earlier ones gave. *)
Lemma batchLoop_from (columnsToUse : list string) (sheetData : list Row)
      (starts : list nat) :
  forall (acc : list string) (w : World Client),
  exists w',
    forOf (fun allKeyPhrases i =>
             let batch := slice i (i + batchSize) sheetData in
             let documents := documents columnsToUse i batch in
             if List.length documents =? 0 then ret allKeyPhrases
             else bind (extractKeyPhrases analyze true (InDocuments documents))
                       (fun batchKeyPhrases => ret (allKeyPhrases ++ batchKeyPhrases)%list))
          starts acc w
    = (Returns (acc ++ fst (runBatches analyze (client w)
                              (filter (fun batch => negb (List.length batch =? 0))
                                 (map (fun i => documents columnsToUse i
                                                  (slice i (i + batchSize) sheetData))
                                      starts))))%list, w')
    /\ client w' = snd (runBatches analyze (client w)
                          (filter (fun batch => negb (List.length batch =? 0))
                             (map (fun i => documents columnsToUse i
                                              (slice i (i + batchSize) sheetData))
                                  starts))).
Proof.
  induction starts as [|i starts IH]; intros acc w; cbn [forOf map filter].
  - exists w. cbn [runBatches fst snd]. now rewrite app_nil_r.
  - set (docs := documents columnsToUse i (slice i (i + batchSize) sheetData)).
    unfold bind at 1.
    destruct (List.length docs =? 0) eqn:Hlen; cbn [negb].
    + unfold ret at 1. apply IH.
    + assert (Hne : docs <> []) by (intro H; rewrite H in Hlen; discriminate).
      destruct (extractKeyPhrases_batch docs w (documents_valid _ _ _) Hne)
        as [w1 [Hw1 Hc1]].
      unfold bind at 1. rewrite Hw1. unfold ret at 1.
      cbn [runBatches].
      destruct (batchOutcome analyze (client w) docs) as [phrases c1].
      cbn [fst snd] in Hc1 |- *.
      destruct (IH (acc ++ phrases)%list w1) as [w' [Hw' Hc']].
      rewrite Hc1 in Hw', Hc'.
      destruct (runBatches analyze c1 _) as [more c2].
      cbn [fst snd] in Hw', Hc' |- *.
      exists w'. rewrite Hw', <- app_assoc. split; [reflexivity | exact Hc'].
Qed.

End Service.

End KeyPhrases.

(** ** Claims about key-phrase extraction *)

Section KeyPhraseClaims.

Import AzureLanguage KeyPhraseExtraction KeyPhraseSpec Examples.

Lemma batchLoop_returns {Client : Type}
      (analyze : Client -> list Document -> Outcome (list AnalysisResult) * Client)
      (hasCredentials : bool) (columnsToUse : list string) (sheetData : list Row)
      (w : World Client) :
  exists allKeyPhrases w',
    batchLoop analyze hasCredentials columnsToUse sheetData w
    = (Returns allKeyPhrases, w').
Proof.
  unfold batchLoop. generalize (@nil string) as acc. revert w.
  induction (batchStarts (List.length sheetData)) as [|i starts IH]; intros w acc;
    cbn [forOf].
  - unfold ret. eauto.
  - unfold bind at 1.
    destruct (List.length _ =? 0).
    + unfold ret at 1. apply IH.
    + unfold bind at 1.
      destruct (extractKeyPhrases_returns Client analyze hasCredentials
                  (InDocuments (documents columnsToUse i
                                  (slice i (i + batchSize) sheetData))) w)
        as [phrases [w1 Hw1]].
      rewrite Hw1. unfold ret at 1. apply IH.
Qed.

Lemma successfulPhrases_In (results : list AnalysisResult) (result : AnalysisResult)
      (phrases : list string) (p : string) :
  In result results ->
  AzureLanguage.error result = None ->
  AzureLanguage.keyPhrases result = Some phrases ->
  In p phrases -> In p (successfulPhrases results).
Proof.
  intros Hin Herr Hkp Hp. unfold successfulPhrases. apply in_flat_map.
  exists result. split; [exact Hin|]. now rewrite Herr, Hkp.
Qed.

(** C8.  Whatever the service answers: [extractKeyPhrases] never throws; when
    the service answers a batch, the phrases of every result without an error
    are returned, the results with an error being skipped; and the batch loop
    of a sheet submits every batch in turn, an earlier batch that threw or
    carried errors changing nothing to that, and never ends in the [catch] of
    the sheet. *)
Theorem C8_partial_failures_do_not_abort :
  forall (Client : Type)
         (analyze : Client -> list Document -> Outcome (list AnalysisResult) * Client),
    (forall hasCredentials input (w : World Client),
        exists phrases w',
          extractKeyPhrases analyze hasCredentials input w = (Returns phrases, w'))
    /\ (forall documents (w : World Client) results c',
           filter isValid documents <> [] ->
           analyze (client w) (filter isValid documents) = (Returns results, c') ->
           (exists w',
               extractKeyPhrases analyze true (InDocuments documents) w
               = (Returns (successfulPhrases results), w'))
           /\ forall result phrases p,
               In result results ->
               AzureLanguage.error result = None ->
               AzureLanguage.keyPhrases result = Some phrases ->
               In p phrases -> In p (successfulPhrases results))
    /\ (forall columnsToUse sheetData (w : World Client),
           exists w',
             batchLoop analyze true columnsToUse sheetData w
             = (Returns (fst (runBatches analyze (client w)
                                (documentBatches columnsToUse sheetData))), w')
             /\ client w' = snd (runBatches analyze (client w)
                                   (documentBatches columnsToUse sheetData)))
    /\ (forall hasCredentials name firstRow rest (w : World Client),
           exists entry w',
             processSheet analyze hasCredentials name (firstRow :: rest) w
             = (Returns entry, w')
             /\ KeyPhraseExtraction.error entry = None).
Proof.
  intros Client analyze. split; [|split; [|split]].
  - apply extractKeyPhrases_returns.
  - intros docs w results c' Hne Han. split.
    + unfold extractKeyPhrases, tryCatch. cbn [negb].
      change (filter _ docs) with (filter isValid docs).
      destruct (filter isValid docs) as [|doc valid] eqn:Hvalid; [contradiction|].
      cbn [List.length Nat.eqb]. unfold bind at 1, clientAnalyze. rewrite Han.
      destruct (results_loop Client results [] {| client := c'; console := console w |})
        as [w' [Hw' _]].
      rewrite Hw'. now exists w'.
    + intros result phrases p. apply successfulPhrases_In.
  - intros cols sheetData w.
    destruct (batchLoop_from Client analyze cols sheetData
                (batchStarts (List.length sheetData)) [] w) as [w' [Hw' Hc]].
    exists w'. split; [exact Hw' | exact Hc].
  - intros hasCredentials name firstRow rest w.
    unfold processSheet, tryCatch. unfold bind at 1.
    destruct (batchLoop_returns analyze hasCredentials (columnsToUse firstRow)
                (firstRow :: rest) w) as [allKeyPhrases [w' Hw']].
    rewrite Hw'. unfold ret. eexists. eexists. split; reflexivity.
Qed.

(** 25 notes against the service that throws on its first call: the three
    batches are all submitted, and in the second batch the phrase of document
    12 is returned although document 11 carries an error. *)
Lemma C8_partial_failures_do_not_abort_witness :
  (exists w',
      batchLoop flakyAnalyze true ["note"] notes {| client := 0; console := [] |}
      = (Returns (fst (runBatches flakyAnalyze 0 (documentBatches ["note"] notes))), w')
      /\ client w' = 3)
  /\ In "Quarterly Report 12"
        (successfulPhrases
           (match fst (flakyAnalyze 1 (documents ["note"] 10 (slice 10 20 notes))) with
            | Returns results => results
            | Throws _ => []
            end)).
Proof.
  destruct (C8_partial_failures_do_not_abort nat flakyAnalyze) as [_ [Hdocs [Hloop _]]].
  split.
  - destruct (Hloop ["note"] notes {| client := 0; console := [] |}) as [w' [Hw' Hc]].
    exists w'. split; [exact Hw'|]. rewrite Hc. vm_compute. reflexivity.
  - refine (proj2 (Hdocs (documents ["note"] 10 (slice 10 20 notes))
                         {| client := 1; console := [] |} _ 2 _ _)
                  {| AzureLanguage.error := None;
                     AzureLanguage.keyPhrases := Some ["Quarterly Report 12"] |}
                  ["Quarterly Report 12"] "Quarterly Report 12" _ _ _ _).
    + vm_compute. discriminate.
    + vm_compute. reflexivity.
    + vm_compute. right. right. left. reflexivity.
    + reflexivity.
    + reflexivity.
    + left. reflexivity.
Defined.

(** C10.  Without credentials [extractKeyPhrases] returns the mock list of
    its input, the service untouched; for every text that list has at most 10
    phrases and no duplicates. *)
Theorem C10_mock_without_credentials :
  forall (Client : Type)
         (analyze : Client -> list Document -> Outcome (list AnalysisResult) * Client)
         (input : Input) (w : World Client),
    extractKeyPhrases analyze false input w
    = (Returns (getMockKeyPhrases
                  match input with
                  | InString s => s
                  | InDocuments documents => stringifyDocuments documents
                  end), w)
    /\ forall text : string,
        List.length (getMockKeyPhrases text) <= 10 /\ NoDup (getMockKeyPhrases text).
Proof.
  intros Client analyze input w. split.
  - reflexivity.
  - apply getMockKeyPhrases_bounds.
Qed.

End KeyPhraseClaims.

(** * Further properties *)

(** ** The selector *)

Section SelectorMore.

Import Chars ChatInterface Variants Examples.

Lemma replaceAll_app (cls : ascii -> bool) (r a b : string) :
  replaceAll cls r (a ++ b) = replaceAll cls r a ++ replaceAll cls r b.
Proof.
  induction a as [|c a IH]; cbn [append replaceAll]; [reflexivity|].
  rewrite IH. destruct (cls c); [now rewrite append_assoc | reflexivity].
Qed.

Lemma split_nonempty (sep : ascii) (s : string) : split sep s <> [].
Proof.
  destruct s as [|c s]; cbn [split]; [discriminate|].
  destruct (Ascii.eqb c sep); [discriminate|]. destruct (split sep s); discriminate.
Qed.

Lemma split_app_separator (sep : ascii) (a b : string) :
  split sep (a ++ String sep b) = (split sep a ++ split sep b)%list.
Proof.
  induction a as [|c a IH]; cbn [append split].
  - now rewrite Ascii.eqb_refl.
  - rewrite IH. destruct (Ascii.eqb c sep); [reflexivity|].
    destruct (split sep a) eqn:Ha; [|reflexivity].
    exfalso. exact (split_nonempty sep a Ha).
Qed.

Lemma keywords_app_space (a b : string) :
  keywords (a ++ " " ++ b) = (keywords a ++ keywords b)%list.
Proof.
  unfold keywords.
  rewrite toLowerCase_app, replaceAll_app. cbn [toLowerCase append].
  change (toLowerCaseChar " ") with " "%char. cbn [replaceAll].
  change (negb (isWordChar " " || isSpace " ")) with false. cbv iota.
  now rewrite split_app_separator, filter_app.
Qed.

Lemma rowMatches_app (k1 k2 : list string) (row : Row) :
  Spec.rowMatches (k1 ++ k2) row = Spec.rowMatches k1 row || Spec.rowMatches k2 row.
Proof. unfold Spec.rowMatches. apply existsb_app. Qed.

Lemma sheetSnippets_app (k1 k2 : list string) (sheetName : string) (rows : list Row)
      (s : string) :
  forall i,
    In s (Spec.sheetSnippets (k1 ++ k2) sheetName i rows) <->
    In s (Spec.sheetSnippets k1 sheetName i rows)
    \/ In s (Spec.sheetSnippets k2 sheetName i rows).
Proof.
  induction rows as [|row rows IH]; intro i; cbn [Spec.sheetSnippets].
  - cbn [In]. tauto.
  - rewrite !in_app_iff, IH, rowMatches_app.
    destruct (Spec.rowMatches k1 row), (Spec.rowMatches k2 row); cbn [orb In]; tauto.
Qed.

Lemma matchedSnippets_app (k1 k2 : list string) (documentData : DocumentData)
      (s : string) :
  In s (Spec.matchedSnippets (k1 ++ k2) documentData) <->
  In s (Spec.matchedSnippets k1 documentData)
  \/ In s (Spec.matchedSnippets k2 documentData).
Proof.
  unfold Spec.matchedSnippets. rewrite !in_flat_map. split.
  - intros [sheet [Hin Hs]]. apply sheetSnippets_app in Hs as [Hs | Hs]; eauto.
  - intros [[sheet [Hin Hs]] | [sheet [Hin Hs]]]; exists sheet;
      (split; [exact Hin|]); apply sheetSnippets_app; tauto.
Qed.

Lemma toLowerCase_join (sep : string) (arr : list string) :
  toLowerCase (join sep arr) = join (toLowerCase sep) (map toLowerCase arr).
Proof.
  unfold join. induction arr as [|x arr IH]; [reflexivity|].
  destruct arr as [|y arr]; [reflexivity|].
  cbn [concat map] in *. now rewrite !toLowerCase_app, IH.
Qed.

Lemma toLowerCase_quote (s : string) :
  toLowerCase (quote s) = quote (toLowerCase s).
Proof.
  unfold quote. now rewrite !toLowerCase_app, quoteBody_toLowerCase.
Qed.

Lemma rowStr_lowerCaseRow (row : Row) : rowStr (lowerCaseRow row) = rowStr row.
Proof.
  unfold rowStr, stringify, entries, lowerCaseRow.
  rewrite !toLowerCase_app, !toLowerCase_join, !map_map. do 3 f_equal.
  apply map_ext. intros [name value]. cbn [fst snd].
  rewrite !toLowerCase_app, !toLowerCase_quote, toLowerCase_idempotent. do 2 f_equal.
  destruct value as [s | text | [] |]; cbn [stringifyValue]; try reflexivity.
  now rewrite !toLowerCase_quote, toLowerCase_idempotent.
Qed.

Lemma Forall_firstn {A} (P : A -> Prop) (n : nat) (l : list A) :
  Forall P l -> Forall P (firstn n l).
Proof.
  revert n. induction l as [|x l IH]; intros [|n] H; cbn [firstn]; try constructor.
  - now inversion H.
  - apply IH. now inversion H.
Qed.

Lemma startsWith_append (k b : string) : startsWith (k ++ b) k = true.
Proof. apply startsWith_iff. now exists b. Qed.

Lemma sheetSnippets_fromSheet (kws : list string) (sheetName : string) (rows : list Row) :
  forall i, Forall (fun s => startsWith s "[From sheet " = true)
                   (Spec.sheetSnippets kws sheetName i rows).
Proof.
  induction rows as [|row rows IH]; intro i; cbn [Spec.sheetSnippets].
  - constructor.
  - apply Forall_app. split; [|apply IH].
    destruct (Spec.rowMatches kws row); constructor; [|constructor].
    unfold fromSheet. apply startsWith_append.
Qed.

Lemma matchedSnippets_fromSheet (kws : list string) (documentData : DocumentData) :
  Forall (fun s => startsWith s "[From sheet " = true)
         (Spec.matchedSnippets kws documentData).
Proof.
  unfold Spec.matchedSnippets.
  induction documentData as [|sheet D IH]; cbn [flat_map]; [constructor|].
  apply Forall_app. split; [apply sheetSnippets_fromSheet | exact IH].
Qed.

Lemma sampleFallback_sample (documentData : DocumentData) :
  Forall (fun s => startsWith s "[Sample from sheet " = true)
         (Spec.sampleFallback documentData).
Proof.
  unfold Spec.sampleFallback.
  induction documentData as [|[name rows] D IH]; cbn [flat_map fst snd]; [constructor|].
  apply Forall_app. split; [|exact IH].
  destruct rows; constructor; [|constructor].
  unfold sampleFromSheet. apply startsWith_append.
Qed.

(** X1.  Every keyword of a query is longer than two code units, is no stop
    word, holds no space, is in lower case, and is made of word characters
    and white space only: punctuation never reaches the matching. *)
Theorem X1_keywords_wellformed :
  forall (query k : string),
    In k (keywords query) ->
    2 < String.length k
    /\ ~ In k stopWords
    /\ noSpace k = true
    /\ toLowerCase k = k
    /\ allChars (fun c => isWordChar c || isSpace c) k = true.
Proof.
  intros query k Hk.
  pose proof (keywords_chars query) as Hchars. rewrite Forall_forall in Hchars.
  specialize (Hchars k Hk).
  unfold keywords in Hk. apply filter_In in Hk as [_ Hkeep].
  apply andb_true_iff in Hkeep as [Hlen Hstop].
  split; [now apply Nat.ltb_lt|].
  split. { intro Hin. apply arrayIncludes_In in Hin. rewrite Hin in Hstop. discriminate. }
  split; [now apply keyword_noSpace|].
  split; [now apply keyword_toLowerCase|].
  revert Hchars. apply allChars_impl. intro c. unfold isKeywordChar.
  rewrite !andb_true_iff. tauto.
Qed.

(** The keyword paris of "weather in Paris". *)
Lemma X1_keywords_wellformed_witness :
  2 < String.length "paris" /\ ~ In "paris" stopWords.
Proof.
  assert (Hk : In "paris" (keywords "weather in Paris"))
    by (vm_compute; right; left; reflexivity).
  exact (conj (proj1 (X1_keywords_wellformed "weather in Paris" "paris" Hk))
              (proj1 (proj2 (X1_keywords_wellformed "weather in Paris" "paris" Hk)))).
Defined.

(** X2.  The keywords of two queries joined by a space are the keywords of
    the first followed by the keywords of the second. *)
Theorem X2_keywords_of_joined_queries :
  forall a b : string, keywords (a ++ " " ++ b) = (keywords a ++ keywords b)%list.
Proof.
  intros a b. unfold keywords.
  rewrite toLowerCase_app, replaceAll_app. cbn [toLowerCase append].
  change (toLowerCaseChar " ") with " "%char. cbn [replaceAll].
  change (negb (isWordChar " " || isSpace " ")) with false. cbv iota.
  rewrite split_app_separator. apply filter_app.
Qed.

(** X3.  The rows that match two queries joined by a space are exactly the
    rows that match one of them: adding words to a query never loses a
    matching row (the cap of 20 apart). *)
Theorem X3_matches_of_joined_queries :
  forall (documentData : DocumentData) (a b s : string),
    In s (collectMatches (keywords (a ++ " " ++ b)) documentData []) <->
    In s (collectMatches (keywords a) documentData [])
    \/ In s (collectMatches (keywords b) documentData []).
Proof.
  intros D a b s. rewrite !collectMatches_spec, keywords_app_space. cbn [app].
  apply matchedSnippets_app.
Qed.

(** The row of Sheet1 matches "xyz paris" because it matches "paris". *)
Lemma X3_matches_of_joined_queries_witness :
  In ("[From sheet " ++ dquote ++ "Sheet1" ++ dquote
        ++ ", row 1]: city: Paris, note: nice weather")
     (collectMatches (keywords ("xyz" ++ " " ++ "paris")) sheet1 []).
Proof.
  apply (proj2 (X3_matches_of_joined_queries sheet1 "xyz" "paris" _)).
  right. vm_compute. left. reflexivity.
Defined.

(** X4.  Whether a row matches does not depend on the letter case of its
    column names and cells. *)
Theorem X4_matching_ignores_case_of_rows :
  forall (keywords : list string) (row : Row),
    matches keywords (lowerCaseRow row) = matches keywords row.
Proof. intros kws row. unfold matches. now rewrite rowStr_lowerCaseRow. Qed.

(** X5.  A result never mixes the two kinds of snippet: when a row matched,
    every snippet is a [[From sheet ...]] match; when none did, every snippet
    is a [[Sample from sheet ...]] sample. *)
Theorem X5_result_is_all_matches_or_all_samples :
  forall (documentData : DocumentData) (query : string) (console : Console.Log),
  exists result,
    returns (findRelevantContent documentData query) console result
    /\ (if List.length (collectMatches (keywords query) documentData []) =? 0
        then Forall (fun s => startsWith s "[Sample from sheet " = true) result
        else Forall (fun s => startsWith s "[From sheet " = true) result).
Proof.
  intros D q console. exists (Spec.selectContext (keywords q) D).
  split; [apply findRelevantContent_spec|].
  rewrite collectMatches_spec. cbn [app]. unfold Spec.selectContext.
  pose proof (matchedSnippets_fromSheet (keywords q) D) as Hfrom.
  destruct (20 <? _) eqn:Hcap.
  - apply Nat.ltb_lt in Hcap.
    destruct (Spec.matchedSnippets (keywords q) D) eqn:Hm; [cbn in Hcap; lia|].
    cbn [List.length Nat.eqb]. now apply Forall_firstn.
  - destruct (Spec.matchedSnippets (keywords q) D) eqn:Hm; cbn [List.length Nat.eqb].
    + apply sampleFallback_sample.
    + exact Hfrom.
Qed.

End SelectorMore.

(** ** Sending a chat message *)

Section ChatSend.

Import ChatInterface ChatInterfaceSend Variants Examples.

Lemma generateCompletion_run {Client : Type}
      (getChatCompletions :
         Client -> list AzureOpenAI.ChatMessage -> Outcome (list AzureOpenAI.Choice) * Client)
      (prompt : string) (context : option (list string)) (w : AzureOpenAI.World Client) :
  AzureOpenAI.generateCompletion getChatCompletions prompt context w
  = match getChatCompletions (AzureOpenAI.client w) (AzureOpenAI.messages prompt context) with
    | (Returns (choice :: _), c) =>
        (Returns match AzureOpenAI.message choice with
                 | Some (Some content) =>
                     if String.eqb content "" then "No response generated" else content
                 | _ => "No response generated"
                 end,
         {| AzureOpenAI.client := c; AzureOpenAI.console := AzureOpenAI.console w |})
    | (Returns [], c) =>
        (Throws "Cannot read properties of undefined (reading 'message')",
         {| AzureOpenAI.client := c;
            AzureOpenAI.console :=
              (AzureOpenAI.console w
                 ++ [[Console.Text "Error generating completion:";
                      Console.Text "Cannot read properties of undefined (reading 'message')"]])%list |})
    | (Throws e, c) =>
        (Throws e,
         {| AzureOpenAI.client := c;
            AzureOpenAI.console :=
              (AzureOpenAI.console w
                 ++ [[Console.Text "Error generating completion:"; Console.Text e]])%list |})
    end.
Proof.
  unfold AzureOpenAI.generateCompletion, tryCatch, bind,
    AzureOpenAI.clientGetChatCompletions, AzureOpenAI.log, throw, ret.
  destruct (getChatCompletions _ _) as [[[|choice choices]|e] c]; reflexivity.
Qed.



(** X7.  Otherwise sending never throws and adds exactly two messages: the
    trimmed input as the user's, then one reply of the assistant, which is
    the content of the first choice of the service ("No response generated"
    when it has none) or, when the service throws or gives no choice, the
    apology.  The input is cleared, the loading flag is off again, and the
    service was called once, with the messages built from the trimmed input
    and the selected context. *)
Theorem X7_send_adds_question_and_reply :
  forall (Client : Type)
         (getChatCompletions :
            Client -> list AzureOpenAI.ChatMessage
            -> Outcome (list AzureOpenAI.Choice) * Client)
         (documentData : DocumentData) (w : World Client),
    trim (inputValue w) <> "" -> isLoading w = false ->
    exists context reply console',
      returns (findRelevantContent documentData (trim (inputValue w)))
              (AzureOpenAI.console (service w)) context
      /\ handleSendMessage getChatCompletions documentData w
         = (Returns tt,
            {| messages :=
                 (messages w
                    ++ [{| role := user; content := trim (inputValue w) |};
                        {| role := assistant; content := reply |}])%list;
               inputValue := "";
               isLoading := false;
               service :=
                 {| AzureOpenAI.client :=
                      snd (getChatCompletions
                             (AzureOpenAI.client (service w))
                             (AzureOpenAI.messages (trim (inputValue w)) (Some context)));
                    AzureOpenAI.console := console' |} |})
      /\ reply
         = match fst (getChatCompletions
                        (AzureOpenAI.client (service w))
                        (AzureOpenAI.messages (trim (inputValue w)) (Some context))) with
           | Returns (choice :: _) =>
               match AzureOpenAI.message choice with
               | Some (Some content) =>
                   if String.eqb content "" then "No response generated" else content
               | _ => "No response generated"
               end
           | _ => "I'm sorry, I encountered an error processing your request."
           end.
Proof.
  intros Client gcc D w Hinput Hloading.
  set (q := trim (inputValue w)) in *.
  pose proof (findRelevantContent_spec D q (AzureOpenAI.console (service w))) as Hctx.
  exists (Spec.selectContext (keywords q) D).
  pose proof Hctx as Hret. unfold returns in Hctx.
  unfold handleSendMessage. fold q.
  apply String.eqb_neq in Hinput. rewrite Hinput, Hloading. cbn [orb].
  unfold tryFinally, tryCatch, bind at 1, setIsLoading at 1.
  unfold bind at 1, setInputValue. unfold bind at 1, setMessages at 1.
  unfold bind at 1, onConsole at 1, onService at 1.
  cbn [service messages inputValue isLoading AzureOpenAI.console AzureOpenAI.client].
  destruct (findRelevantContent D q (AzureOpenAI.console (service w))) as [o c1].
  cbn [fst] in Hctx. subst o.
  unfold bind at 1, onConsole at 1, onService at 1, ChatInterface.log.
  cbn [service messages inputValue isLoading AzureOpenAI.console AzureOpenAI.client].
  unfold bind at 1, onService at 1.
  cbn [service messages inputValue isLoading AzureOpenAI.console AzureOpenAI.client].
  rewrite generateCompletion_run.
  cbn [AzureOpenAI.console AzureOpenAI.client].
  destruct (gcc (AzureOpenAI.client (service w))
                (AzureOpenAI.messages q (Some (Spec.selectContext (keywords q) D))))
    as [[[|choice choices]|e] c]; cbn [fst snd].
  - eexists. eexists. split; [exact Hret|]. split; [|reflexivity].
    unfold bind, onConsole, onService, ChatInterface.log, setMessages, setIsLoading.
    cbn. rewrite <- app_assoc. reflexivity.
  - eexists. eexists. split; [exact Hret|]. split; [|reflexivity].
    unfold setMessages, setIsLoading. cbn. rewrite <- app_assoc. reflexivity.
  - eexists. eexists. split; [exact Hret|]. split; [|reflexivity].
    unfold bind, onConsole, onService, ChatInterface.log, setMessages, setIsLoading.
    cbn. rewrite <- app_assoc. reflexivity.
Qed.

(** The question " weather in Paris " put to a service that echoes it. *)
Lemma X7_send_adds_question_and_reply_witness :
  exists w',
    handleSendMessage echoCompletions sheet1
      {| messages := []; inputValue := " weather in Paris "; isLoading := false;
         service := {| AzureOpenAI.client := 0; AzureOpenAI.console := [] |} |}
    = (Returns tt, w')
    /\ messages w' = [{| role := user; content := "weather in Paris" |};
                      {| role := assistant; content := "weather in Paris" |}]
    /\ isLoading w' = false.
Proof.
  destruct (X7_send_adds_question_and_reply nat echoCompletions sheet1
              {| messages := []; inputValue := " weather in Paris "; isLoading := false;
                 service := {| AzureOpenAI.client := 0; AzureOpenAI.console := [] |} |})
    as [context [reply [console' [_ [Hrun Hreply]]]]].
  - vm_compute. discriminate.
  - reflexivity.
  - eexists. split; [exact Hrun|]. split; [|reflexivity].
    cbn [messages app]. rewrite Hreply.
    destruct context; vm_compute; reflexivity.
Defined.

(** X8.  The request of a chat turn is grounded exactly when the dataset has
    a row: with a sheet that has a row it carries the selected snippets,
    separated by blank lines, between the system prompt and the question;
    with none it is the request made without context.  The question is always
    its last message. *)
Theorem X8_request_is_grounded_iff_rows :
  forall (documentData : DocumentData) (query : string) (console : Console.Log),
  exists context,
    returns (findRelevantContent documentData query) console context
    /\ (AzureOpenAI.messages query (Some context) = AzureOpenAI.messages query None
        <-> forall sheet, In sheet documentData -> snd sheet = [])
    /\ List.length (AzureOpenAI.messages query (Some context))
       = (if List.length context =? 0 then 3 else 4)
    /\ last (AzureOpenAI.messages query (Some context))
            {| AzureOpenAI.role := ""; AzureOpenAI.content := "" |}
       = {| AzureOpenAI.role := "user"; AzureOpenAI.content := query |}
    /\ (if List.length context =? 0 then True
        else nth_error (AzureOpenAI.messages query (Some context)) 1
             = Some {| AzureOpenAI.role := "system";
                       AzureOpenAI.content :=
                         "Here is the relevant data from the user's spreadsheets:"
                           ++ AzureOpenAI.newline ++ AzureOpenAI.newline
                           ++ join (AzureOpenAI.newline ++ AzureOpenAI.newline) context |}).
Proof.
  intros D q console. exists (Spec.selectContext (keywords q) D).
  split; [apply findRelevantContent_spec|].
  pose proof (selectContext_nil (keywords q) D) as Hnil.
  rewrite nonEmptySheets_nil in Hnil.
  destruct (Spec.selectContext (keywords q) D) as [|snippet context].
  - split; [|repeat split; reflexivity].
    split; [intros _; now apply Hnil | reflexivity].
  - split; [|repeat split; reflexivity]. split.
    + intro H. apply (f_equal (@List.length _)) in H. discriminate H.
    + intro H. apply Hnil in H. discriminate H.
Qed.

(** The sheet of the examples has a row: the request carries its snippet. *)
Lemma X8_request_is_grounded_iff_rows_witness :
  exists context,
    returns (findRelevantContent sheet1 "weather in Paris") [] context
    /\ AzureOpenAI.messages "weather in Paris" (Some context)
       <> AzureOpenAI.messages "weather in Paris" None.
Proof.
  destruct (X8_request_is_grounded_iff_rows sheet1 "weather in Paris" [])
    as [context [Hret [Hiff _]]].
  exists context. split; [exact Hret|].
  intro H. apply Hiff with (sheet := hd ("", []) sheet1) in H.
  - discriminate H.
  - left. reflexivity.
Defined.

(** X9.  [generateCompletion] calls the service once.  A reply it returns is
    never the empty string, and nothing is logged for it.  It throws exactly
    when the service throws or gives no choice; the error is logged once and
    rethrown as it is. *)
Theorem X9_generateCompletion_outcomes :
  forall (Client : Type)
         (getChatCompletions :
            Client -> list AzureOpenAI.ChatMessage
            -> Outcome (list AzureOpenAI.Choice) * Client)
         (prompt : string) (context : option (list string))
         (w : AzureOpenAI.World Client),
    let request :=
      getChatCompletions (AzureOpenAI.client w) (AzureOpenAI.messages prompt context) in
    let run := AzureOpenAI.generateCompletion getChatCompletions prompt context w in
    AzureOpenAI.client (snd run) = snd request
    /\ match fst run with
       | Returns reply =>
           String.eqb reply "" = false
           /\ AzureOpenAI.console (snd run) = AzureOpenAI.console w
           /\ match fst request with
              | Returns (_ :: _) => True
              | _ => False
              end
       | Throws e =>
           AzureOpenAI.console (snd run)
           = (AzureOpenAI.console w
                ++ [[Console.Text "Error generating completion:"; Console.Text e]])%list
           /\ match fst request with
              | Throws e' => e = e'
              | Returns choices => choices = []
              end
       end.
Proof.
  intros Client gcc prompt context w request run.
  subst run. rewrite generateCompletion_run. subst request.
  destruct (gcc _ _) as [[[|choice choices]|e] c]; cbn [fst snd AzureOpenAI.client
    AzureOpenAI.console]; split; try reflexivity; repeat split.
  destruct (AzureOpenAI.message choice) as [[content|]|]; try reflexivity.
  destruct (String.eqb content "") eqn:Hc; [reflexivity | exact Hc].
Qed.

End ChatSend.

(** ** Searching *)

Section Searching.

Import Chars AzureSearchService Variants.

Lemma allChars_true (s : string) : allChars (fun _ => true) s = true.
Proof. induction s as [|c s IH]; simpl; auto. Qed.

Lemma fallbackWords_wordChars (query : string) :
  Forall (fun word => allChars isWordChar word = true) (fallbackWords query).
Proof.
  unfold fallbackWords. apply Forall_forall. intros word Hin.
  apply in_map_iff in Hin as [token [<- _]].
  apply replaceAll_allChars; [reflexivity|].
  eapply allChars_impl; [|apply allChars_true].
  intros c _. destruct (isWordChar c); reflexivity.
Qed.

Lemma insertByLengthDescending_head (x : string) (sorted : list string) :
  exists t,
    insertByLengthDescending x sorted
    = match sorted with
      | [] => x
      | y :: _ => if String.length y <=? String.length x then x else y
      end :: t.
Proof.
  destruct sorted as [|y sorted]; cbn [insertByLengthDescending]; [eauto|].
  destruct (String.length y <=? String.length x); eauto.
Qed.

Lemma insertByLengthDescending_Permutation (x : string) (sorted : list string) :
  Permutation (x :: sorted) (insertByLengthDescending x sorted).
Proof.
  induction sorted as [|y sorted IH]; cbn [insertByLengthDescending]; [reflexivity|].
  destruct (String.length y <=? String.length x); [reflexivity|].
  rewrite perm_swap. now constructor.
Qed.

Lemma sortByLengthDescending_Permutation (arr : list string) :
  Permutation arr (sortByLengthDescending arr).
Proof.
  induction arr as [|x arr IH]; cbn [sortByLengthDescending fold_right]; [constructor|].
  rewrite <- insertByLengthDescending_Permutation. now constructor.
Qed.

Lemma sortByLengthDescending_head (arr : list string) :
  forall h t,
    sortByLengthDescending arr = h :: t ->
    (forall word, In word arr -> String.length word <= String.length h)
    /\ exists before after,
        arr = (before ++ h :: after)%list
        /\ forall word, In word before -> String.length word < String.length h.
Proof.
  induction arr as [|x arr IH]; intros h t Hsort; [discriminate|].
  cbn [sortByLengthDescending fold_right] in Hsort.
  fold (sortByLengthDescending arr) in Hsort.
  destruct (insertByLengthDescending_head x (sortByLengthDescending arr)) as [t' Hhead].
  rewrite Hhead in Hsort. injection Hsort as Hh _.
  destruct (sortByLengthDescending arr) as [|y sorted] eqn:Hs.
  - subst h.
    assert (arr = []) as ->.
    { pose proof (sortByLengthDescending_Permutation arr) as Hp. rewrite Hs in Hp.
      apply Permutation_sym in Hp. now apply Permutation_nil in Hp. }
    split.
    + intros word [<- | []]. lia.
    + exists [], []. split; [reflexivity | intros word []].
  - destruct (IH y sorted eq_refl) as [Hmax [before [after [Harr Hbefore]]]].
    destruct (String.length y <=? String.length x) eqn:Hle.
    + apply Nat.leb_le in Hle. subst h. split.
      * intros word [<- | Hin]; [lia|]. specialize (Hmax word Hin). lia.
      * exists [], arr. split; [reflexivity | intros word []].
    + apply Nat.leb_gt in Hle. subst h. split.
      * intros word [<- | Hin]; [lia | now apply Hmax].
      * exists (x :: before), after. split; [now rewrite Harr|].
        intros word [<- | Hin]; [exact Hle | now apply Hbefore].
Qed.

Section Service.

Variable Http : Type.
Variable post : Http -> string -> Json -> Settled Response * Http.

(** [fallbackSearch] never rejects and never gives an empty array. *)
Lemma fallbackSearch_fulfilled (query : string) (top : nat) (w : World Http) :
  exists results w',
    fallbackSearch post query top w = (Fulfilled results, w')
    /\ 0 < List.length results.
Proof.
  unfold fallbackSearch, catch. unfold andThen at 1, log at 1.
  destruct (List.length (fallbackWords query) =? 0).
  - unfold resolve. eexists. eexists. split; [reflexivity | cbn; lia].
  - unfold andThen at 1, axiosPost at 1. cbn [http currentIndexName console].
    destruct (post _ _ _) as [[response|error] h1].
    + destruct (hits response) as [|hit value].
      * destruct (sortByLengthDescending (fallbackWords query)) as [|longestWord rest].
        -- unfold resolve. eexists. eexists. split; [reflexivity | cbn; lia].
        -- unfold andThen at 1, log at 1. unfold andThen at 1, axiosPost at 1.
           cbn [http currentIndexName console].
           destruct (post _ _ _) as [[lastResponse|error] h2].
           ++ destruct (hits lastResponse) as [|hit value]; unfold resolve;
                eexists; eexists; (split; [reflexivity | cbn; lia]).
           ++ unfold andThen, log, resolve.
              eexists. eexists. split; [reflexivity | cbn; lia].
      * unfold andThen, log, resolve.
        eexists. eexists. split; [reflexivity | cbn; lia].
    + unfold andThen, log, resolve.
      eexists. eexists. split; [reflexivity | cbn; lia].
Qed.

End Service.

(** X10.  Whatever the proxy answers or throws, [searchDocuments] never
    rejects and never resolves to an empty array: when nothing is found the
    mock results stand in. *)
Theorem X10_searchDocuments_always_gives_results :
  forall (Http : Type) (post : Http -> string -> Json -> Settled Response * Http)
         (query : string) (top : option nat) (w : World Http),
  exists results w',
    searchDocuments post query top w = (Fulfilled results, w')
    /\ 0 < List.length results.
Proof.
  intros Http post query top w.
  unfold searchDocuments. unfold andThen at 1, catch.
  destruct (String.eqb (currentIndexName w) "").
  - unfold andThen, log, resolve. eexists. eexists. split; [reflexivity | cbn; lia].
  - unfold andThen at 1, log at 1. unfold andThen at 1, log at 1.
    unfold andThen at 1, axiosPost at 1. cbn [http currentIndexName console].
    destruct (post _ _ _) as [[response|error] h1].
    + destruct (data response) as [[[value|]]|].
      * unfold andThen at 1, log at 1. destruct value as [|first value].
        -- unfold andThen at 1, log at 1. unfold resolve at 1.
           apply fallbackSearch_fulfilled.
        -- unfold andThen, log, resolve.
           eexists. eexists. split; [reflexivity | cbn; lia].
      * unfold resolve. eexists. eexists. split; [reflexivity | cbn; lia].
      * unfold resolve. eexists. eexists. split; [reflexivity | cbn; lia].
    + unfold andThen at 1, log at 1. unfold andThen at 1.
      destruct (response error) as [responseData|].
      * unfold log at 1. unfold andThen at 1, log at 1. unfold resolve at 1.
        apply fallbackSearch_fulfilled.
      * unfold resolve at 1. unfold andThen at 1, log at 1. unfold resolve at 1.
        apply fallbackSearch_fulfilled.
Qed.



(** X12.  Every word of the fallback query is made of word characters only;
    and a query without a token longer than two code units gives the mock
    results with no request sent. *)
Theorem X12_fallback_query_words :
  forall (Http : Type) (post : Http -> string -> Json -> Settled Response * Http)
         (query : string) (top : nat) (w : World Http),
    (forall word, In word (fallbackWords query) -> allChars isWordChar word = true)
    /\ (fallbackWords query = [] ->
        fst (fallbackSearch post query top w) = Fulfilled (getMockSearchResults query)
        /\ http (snd (fallbackSearch post query top w)) = http w).
Proof.
  intros Http post query top w. split.
  - apply Forall_forall, fallbackWords_wordChars.
  - intro Hwords. unfold fallbackSearch, catch, andThen, log, resolve.
    rewrite Hwords. split; reflexivity.
Qed.

(** The word "hello,world" loses its comma; "to be" has no word to keep. *)
Lemma X12_fallback_query_words_witness :
  allChars isWordChar "helloworld" = true
  /\ http (snd (fallbackSearch noHits "to be" 10
                  {| currentIndexName := "idx"; http := 0; console := [] |})) = 0.
Proof.
  destruct (X12_fallback_query_words nat noHits "say hello,world" 10
              {| currentIndexName := "idx"; http := 0; console := [] |}) as [Hchars _].
  destruct (X12_fallback_query_words nat noHits "to be" 10
              {| currentIndexName := "idx"; http := 0; console := [] |}) as [_ Hnone].
  split.
  - apply Hchars. vm_compute. right. left. reflexivity.
  - apply Hnone. vm_compute. reflexivity.
Defined.

(** X13.  The last-resort keyword, the head of the words sorted by
    decreasing length, is a word of the greatest length, and the first of
    that length in the query; the sort only reorders the words. *)
Theorem X13_last_resort_keyword_is_first_longest :
  forall (words : list string) (longestWord : string) (rest : list string),
    sortByLengthDescending words = longestWord :: rest ->
    Permutation words (longestWord :: rest)
    /\ (forall word, In word words -> String.length word <= String.length longestWord)
    /\ exists before after,
        words = (before ++ longestWord :: after)%list
        /\ forall word, In word before -> String.length word < String.length longestWord.
Proof.
  intros words h t Hsort. split.
  - rewrite <- Hsort. apply sortByLengthDescending_Permutation.
  - apply (sortByLengthDescending_head words h t Hsort).
Qed.

(** Of bb, a, ccc, dd, eee the keyword is ccc. *)
Lemma X13_last_resort_keyword_is_first_longest_witness :
  sortByLengthDescending ["bb"; "a"; "ccc"; "dd"; "eee"] = ["ccc"; "eee"; "bb"; "dd"; "a"]
  /\ String.length "eee" <= String.length "ccc".
Proof.
  split; [reflexivity|].
  refine (proj1 (proj2 (X13_last_resort_keyword_is_first_longest
                          ["bb"; "a"; "ccc"; "dd"; "eee"] "ccc" ["eee"; "bb"; "dd"; "a"]
                          eq_refl))
                "eee" _).
  vm_compute. do 4 right. left. reflexivity.
Defined.

End Searching.

(** ** Mock key phrases and blank documents *)

Section MockKeyPhrases.

Import Chars AzureLanguage KeyPhraseExtraction KeyPhraseSpec Examples.

Lemma forEachFrom_invariant_In {A St} (P : St -> Prop) (body : St -> A -> nat -> St)
      (arr : list A) :
  (forall acc x i, In x arr -> P acc -> P (body acc x i)) ->
  forall i acc, P acc -> P (forEachFrom i body arr acc).
Proof.
  induction arr as [|x arr IH]; intros Hbody i acc Hacc; cbn [forEachFrom].
  - exact Hacc.
  - apply IH.
    + intros acc' y j Hy. apply Hbody. now right.
    + apply Hbody; [now left | exact Hacc].
Qed.

Lemma SetAdd_In (set : list string) (x y : string) :
  In y (SetAdd set x) -> In y set \/ y = x.
Proof.
  unfold SetAdd. destruct (arrayIncludes set x); [now left|].
  rewrite in_app_iff. cbn [In]. intuition.
Qed.

Lemma slice_In {A} (i j : nat) (arr : list A) (x : A) : In x (slice i j arr) -> In x arr.
Proof.
  unfold slice. intro H.
  rewrite <- (firstn_skipn i arr). apply in_or_app. right.
  rewrite <- (firstn_skipn (j - i) (skipn i arr)). apply in_or_app. now left.
Qed.

Lemma splitWhitespace_nonempty (s : string) : splitWhitespace s <> [].
Proof.
  induction s as [|c s IH]; cbn [splitWhitespace]; [discriminate|].
  destruct (isSpace c).
  - destruct s as [|c' s']; [discriminate|]. destruct (isSpace c'); [exact IH | discriminate].
  - destruct (splitWhitespace s); discriminate.
Qed.

Lemma splitWhitespace_noSpace (s : string) :
  Forall (fun word => allChars (fun c => negb (isSpace c)) word = true)
         (splitWhitespace s).
Proof.
  induction s as [|c s IH]; cbn [splitWhitespace].
  - constructor; [reflexivity | constructor].
  - destruct (isSpace c) eqn:Hc.
    + destruct s as [|c' s']; [constructor; [reflexivity | exact IH]|].
      destruct (isSpace c'); [exact IH | constructor; [reflexivity | exact IH]].
    + destruct (splitWhitespace s) as [|w ws].
      * constructor; [cbn [allChars]; now rewrite Hc | constructor].
      * inversion IH as [|? ? Hw Hws]; subst.
        constructor; [cbn [allChars]; now rewrite Hc, Hw | exact Hws].
Qed.

Lemma replaceAll_removes (cls p : ascii -> bool) (s : string) :
  allChars p s = true ->
  allChars (fun c => negb (cls c) && p c) (replaceAll cls "" s) = true.
Proof.
  induction s as [|c s IH]; cbn [replaceAll allChars]; [reflexivity|].
  rewrite andb_true_iff. intros [Hc Hs]. specialize (IH Hs).
  destruct (cls c) eqn:Hcls; cbn [append allChars]; [exact IH|].
  now rewrite Hcls, Hc, IH.
Qed.

(** X14.  Every mock key phrase is a word of the text (its maximal runs of
    non-white-space) with the punctuation of the class removed: it holds
    neither white space nor any of those punctuation characters. *)
Theorem X14_mock_phrases_are_cleaned_words :
  forall (text p : string),
    In p (getMockKeyPhrases text) ->
    (exists word, In word (splitWhitespace text) /\ p = replaceAll isPunctuation "" word)
    /\ allChars (fun c => negb (isPunctuation c) && negb (isSpace c)) p = true.
Proof.
  intros text p Hp.
  assert (Hword : exists word,
             In word (splitWhitespace text) /\ p = replaceAll isPunctuation "" word).
  { unfold getMockKeyPhrases in Hp. apply slice_In in Hp.
    set (P := fun acc : list string =>
                forall q, In q acc ->
                          exists word, In word (splitWhitespace text)
                                       /\ q = replaceAll isPunctuation "" word).
    set (first := forEach _ _ _) in Hp.
    assert (Hfirst : P first).
    { unfold first, forEach. apply forEachFrom_invariant_In; [|intros q []].
      intros acc word i Hin Hacc q Hq.
      destruct (_ && arrayIncludes _ _); [apply SetAdd_In in Hq as [Hq | ->]; [|eauto]|];
        (destruct (_ && _ && _); [apply SetAdd_In in Hq as [Hq | ->]; [|eauto]|]);
        now apply Hacc. }
    destruct (List.length first =? 0); [|now apply Hfirst].
    revert p Hp. change (P (forEach
      (fun keyPhrases word (_ : nat) =>
         let cleanWord := replaceAll isPunctuation "" word in
         if 6 <? String.length cleanWord then SetAdd keyPhrases cleanWord else keyPhrases)
      (splitWhitespace text) first)).
    unfold forEach. apply forEachFrom_invariant_In; [|exact Hfirst].
    intros acc word i Hin Hacc q Hq. cbv zeta in Hq.
    destruct (6 <? _); [apply SetAdd_In in Hq as [Hq | ->]; [|eauto]|]; now apply Hacc. }
  split; [exact Hword|].
  destruct Hword as [word [Hin ->]].
  pose proof (splitWhitespace_noSpace text) as Hns. rewrite Forall_forall in Hns.
  apply replaceAll_removes, Hns, Hin.
Qed.

(** The phrase Brown of a short text. *)
Lemma X14_mock_phrases_are_cleaned_words_witness :
  allChars (fun c => negb (isPunctuation c) && negb (isSpace c)) "Brown" = true.
Proof.
  refine (proj2 (X14_mock_phrases_are_cleaned_words
                   "The quick (Brown), fox." "Brown" _)).
  vm_compute. left. reflexivity.
Defined.



End MockKeyPhrases.

(** ** Batches and documents of a sheet *)

Section Batches.

Import AzureLanguage KeyPhraseExtraction KeyPhraseSpec Variants Examples.

Lemma filter_seq_none (p : nat -> bool) (k : nat) :
  forall a, (forall i, a <= i < a + k -> p i = false) -> filter p (seq a k) = [].
Proof.
  induction k as [|k IH]; intros a H; cbn [seq filter]; [reflexivity|].
  rewrite (H a) by lia. apply IH. intros i Hi. apply H. lia.
Qed.

Lemma filter_seq_shift (k : nat) :
  forall a,
    filter (fun i => i mod batchSize =? 0) (seq (a + batchSize) k)
    = map (fun i => i + batchSize) (filter (fun i => i mod batchSize =? 0) (seq a k)).
Proof.
  unfold batchSize.
  induction k as [|k IH]; intro a; cbn [seq filter]; [reflexivity|].
  replace ((a + 10) mod 10) with (a mod 10)
    by (symmetry; apply (Nat.Div0.mod_add a 1 10)).
  change (S (a + 10)) with (S a + 10). rewrite IH.
  destruct (a mod 10 =? 0); reflexivity.
Qed.

Lemma batchStarts_step (n : nat) :
  0 < n ->
  batchStarts n = 0 :: map (fun i => i + batchSize) (batchStarts (n - batchSize)).
Proof.
  intro Hn. unfold batchStarts. destruct n as [|m]; [lia|].
  cbn [seq filter]. change (0 mod batchSize =? 0) with true. cbv iota. f_equal.
  destruct (le_lt_dec m 9) as [Hm | Hm].
  - replace (S m - batchSize) with 0 by (unfold batchSize; lia). cbn [seq filter map].
    apply filter_seq_none. intros i Hi. unfold batchSize.
    rewrite Nat.mod_small by lia. apply Nat.eqb_neq. lia.
  - replace m with (9 + (S m - batchSize)) at 1 by (unfold batchSize; lia).
    rewrite seq_app, filter_app.
    change (1 + 9) with (0 + batchSize). rewrite filter_seq_shift.
    change (filter (fun i => i mod batchSize =? 0) (seq 1 9)) with (@nil nat).
    reflexivity.
Qed.

Lemma slice_batch {A} (i : nat) (arr : list A) :
  slice i (i + batchSize) arr = firstn batchSize (skipn i arr).
Proof. unfold slice. f_equal. lia. Qed.

(** The batches are the rows cut every [batchSize] rows. *)
Lemma batches_concat {A} (n : nat) :
  forall arr : list A,
    List.length arr = n ->
    List.concat (map (fun i => slice i (i + batchSize) arr) (batchStarts n)) = arr.
Proof.
  induction n as [n IH] using lt_wf_ind. intros arr Hlen.
  destruct (Nat.eq_dec n 0) as [-> | Hn].
  - destruct arr; [reflexivity | discriminate].
  - rewrite batchStarts_step by lia. cbn [map List.concat].
    rewrite map_map.
    rewrite (map_ext (fun i => slice (i + batchSize) (i + batchSize + batchSize) arr)
                     (fun i => slice i (i + batchSize) (skipn batchSize arr))).
    + rewrite IH; [| unfold batchSize; lia | rewrite length_skipn; lia].
      rewrite slice_batch. cbn [skipn]. apply firstn_skipn.
    + intro i. now rewrite !slice_batch, skipn_skipn.
Qed.

Lemma batchStarts_bound (n i : nat) : In i (batchStarts n) -> i < n.
Proof.
  unfold batchStarts. intro H. apply filter_In in H as [H _]. apply in_seq in H. lia.
Qed.

(** X16.  The batches of a sheet are its rows cut every 10 rows: put end to
    end they give the rows back, each row in one batch and in order, and
    every batch has between 1 and 10 rows. *)
Theorem X16_batches_partition_the_rows :
  forall sheetData : list Row,
    List.concat (map (fun i => slice i (i + batchSize) sheetData)
                (batchStarts (List.length sheetData))) = sheetData
    /\ Forall (fun i => 0 < List.length (slice i (i + batchSize) sheetData)
                        /\ List.length (slice i (i + batchSize) sheetData) <= 10)
              (batchStarts (List.length sheetData)).
Proof.
  intro sheetData. split.
  - now apply batches_concat.
  - apply Forall_forall. intros i Hi. apply batchStarts_bound in Hi.
    rewrite slice_batch, length_firstn, length_skipn. unfold batchSize. lia.
Qed.










End Batches.

(** ** The entry of a sheet *)

Section SheetEntry.

Import AzureLanguage KeyPhraseExtraction KeyPhraseSpec Variants Examples.

Lemma insertByLength_Permutation (x : string) (sorted : list string) :
  Permutation (x :: sorted) (insertByLength x sorted).
Proof.
  induction sorted as [|y sorted IH]; cbn [insertByLength]; [reflexivity|].
  destruct (String.length x <=? String.length y); [reflexivity|].
  rewrite perm_swap. now constructor.
Qed.

Lemma sortByLength_Permutation (arr : list string) : Permutation arr (sortByLength arr).
Proof.
  induction arr as [|x arr IH]; cbn [sortByLength fold_right]; [constructor|].
  rewrite <- insertByLength_Permutation. now constructor.
Qed.

Lemma insertByLength_Sorted (x : string) (sorted : list string) :
  Sorted (fun a b => String.length a <= String.length b) sorted ->
  Sorted (fun a b => String.length a <= String.length b) (insertByLength x sorted).
Proof.
  induction sorted as [|y sorted IH]; intro Hs; cbn [insertByLength].
  - repeat constructor.
  - destruct (String.length x <=? String.length y) eqn:Hle.
    + apply Nat.leb_le in Hle. constructor; [exact Hs | now constructor].
    + apply Nat.leb_gt in Hle. inversion Hs as [|? ? Hsorted Hhd]; subst.
      constructor; [now apply IH|].
      destruct sorted as [|z sorted]; cbn [insertByLength].
      * constructor. lia.
      * destruct (String.length x <=? String.length z); constructor;
          [lia | now inversion Hhd].
Qed.

Lemma sortByLength_Sorted (arr : list string) :
  Sorted (fun a b => String.length a <= String.length b) (sortByLength arr).
Proof.
  induction arr as [|x arr IH]; cbn [sortByLength fold_right]; [constructor|].
  now apply insertByLength_Sorted.
Qed.

(** X18.  A sheet without rows gets the error "No data in sheet", with the
    service not called and nothing logged.  Any other sheet gets no error,
    whatever the service does, and its key phrases are those the batches
    returned, each once, in order of increasing length. *)
Theorem X18_entry_of_a_sheet :
  forall (Client : Type)
         (analyze : Client -> list Document -> Outcome (list AnalysisResult) * Client)
         (hasCredentials : bool) (name : string) (w : World Client),
    processSheet analyze hasCredentials name [] w
    = (Returns {| sheetName := name; keyPhrases := []; isProcessing := false;
                  error := Some "No data in sheet" |}, w)
    /\ forall firstRow rest,
        exists allKeyPhrases entry w',
          batchLoop analyze hasCredentials (columnsToUse firstRow) (firstRow :: rest) w
          = (Returns allKeyPhrases, w')
          /\ processSheet analyze hasCredentials name (firstRow :: rest) w
             = (Returns entry, w')
          /\ sheetName entry = name
          /\ isProcessing entry = false
          /\ KeyPhraseExtraction.error entry = None
          /\ NoDup (KeyPhraseExtraction.keyPhrases entry)
          /\ Sorted (fun a b => String.length a <= String.length b)
                    (KeyPhraseExtraction.keyPhrases entry)
          /\ (forall p, In p (KeyPhraseExtraction.keyPhrases entry) <-> In p allKeyPhrases).
Proof.
  intros Client analyze hc name w. split; [reflexivity|].
  intros firstRow rest.
  destruct (batchLoop_returns analyze hc (columnsToUse firstRow) (firstRow :: rest) w)
    as [allKeyPhrases [w' Hloop]].
  exists allKeyPhrases. eexists. exists w'.
  split; [exact Hloop|]. split.
  { unfold processSheet, tryCatch. unfold bind at 1. rewrite Hloop. reflexivity. }
  cbn [sheetName isProcessing KeyPhraseExtraction.error KeyPhraseExtraction.keyPhrases].
  destruct (SetFrom_spec allKeyPhrases) as [Hnd Hin].
  repeat split.
  - eapply Permutation_NoDup; [apply sortByLength_Permutation | exact Hnd].
  - apply sortByLength_Sorted.
  - intro H. apply Hin. eapply Permutation_in; [|exact H].
    apply Permutation_sym, sortByLength_Permutation.
  - intro H. apply Hin in H. eapply Permutation_in; [|exact H].
    apply sortByLength_Permutation.
Qed.

(** The 25 notes against the service that throws on its first call. *)
Lemma X18_entry_of_a_sheet_witness :
  exists entry w',
    processSheet flakyAnalyze true "Notes" notes {| client := 0; console := [] |}
    = (Returns entry, w')
    /\ KeyPhraseExtraction.error entry = None
    /\ NoDup (KeyPhraseExtraction.keyPhrases entry).
Proof.
  destruct (proj2 (X18_entry_of_a_sheet nat flakyAnalyze true "Notes"
                     {| client := 0; console := [] |})
                  (hd [] notes) (tl notes))
    as [allKeyPhrases [entry [w' [_ [Hrun [_ [_ [Herr [Hnd _]]]]]]]]].
  exists entry, w'. split; [exact Hrun|]. split; [exact Herr | exact Hnd].
Defined.

End SheetEntry.

(** ** The tokens and phrases of the search extractor *)

Section SearchTokens.

Import Chars Variants.

Lemma splitWhitespace_allChars (p : ascii -> bool) (s : string) :
  allChars p s = true -> Forall (fun w => allChars p w = true) (splitWhitespace s).
Proof.
  induction s as [|c s IH]; cbn [splitWhitespace allChars].
  - intros _. constructor; [reflexivity | constructor].
  - rewrite andb_true_iff. intros [Hc Hs]. specialize (IH Hs).
    destruct (isSpace c).
    + destruct s as [|c' s']; [constructor; [reflexivity | exact IH]|].
      destruct (isSpace c'); [exact IH | constructor; [reflexivity | exact IH]].
    + destruct (splitWhitespace s) as [|w ws].
      * constructor; [cbn [allChars]; now rewrite Hc | constructor].
      * inversion IH as [|? ? Hw Hws]; subst.
        constructor; [cbn [allChars]; now rewrite Hc, Hw | exact Hws].
Qed.


(** X19.  Every token of the search extractor is longer than one code unit,
    is no stop word of its list, and is made of lowercase word characters
    only: unlike a keyword of the selector it never holds white space. *)
Theorem X19_search_tokens_wellformed :
  forall (query t : string),
    In t (AzureSearch.tokens query) ->
    1 < String.length t
    /\ ~ In t AzureSearch.stopWords
    /\ allChars (fun c => isWordChar c && Ascii.eqb (toLowerCaseChar c) c) t = true.
Proof.
  intros query t Ht. unfold AzureSearch.tokens in Ht.
  apply filter_In in Ht as [Hin Hkeep].
  apply andb_true_iff in Hkeep as [Hlen Hstop].
  split; [now apply Nat.ltb_lt|].
  split. { intro H. apply arrayIncludes_In in H. rewrite H in Hstop. discriminate. }
  set (blank := replaceAll _ _ _) in Hin.
  assert (Hblank : allChars (fun c => (isWordChar c || isSpace c)
                                      && Ascii.eqb (toLowerCaseChar c) c) blank = true).
  { apply replaceAll_allChars; [reflexivity|].
    eapply allChars_impl; [|apply toLowerCase_fixed].
    intros c Hc. cbn beta. rewrite Hc.
    destruct (isWordChar c || isSpace c); reflexivity. }
  pose proof (splitWhitespace_allChars _ _ Hblank) as H1.
  pose proof (splitWhitespace_noSpace blank) as H2.
  rewrite Forall_forall in H1, H2. specialize (H1 t Hin). specialize (H2 t Hin).
  assert (H : allChars (fun c => ((isWordChar c || isSpace c)
                                  && Ascii.eqb (toLowerCaseChar c) c)
                                 && negb (isSpace c)) t = true)
    by now rewrite allChars_and, H1, H2.
  revert H. apply allChars_impl. intro c.
  destruct (isWordChar c), (isSpace c), (Ascii.eqb (toLowerCaseChar c) c); auto.
Qed.

(** The token fox of "The quick fox". *)
Lemma X19_search_tokens_wellformed_witness :
  1 < String.length "fox" /\ ~ In "fox" AzureSearch.stopWords.
Proof.
  assert (Ht : In "fox" (AzureSearch.tokens "The quick fox"))
    by (vm_compute; right; left; reflexivity).
  exact (conj (proj1 (X19_search_tokens_wellformed "The quick fox" "fox" Ht))
              (proj1 (proj2 (X19_search_tokens_wellformed "The quick fox" "fox" Ht)))).
Defined.



End SearchTokens.

(** ** The label of the mock sentiment analysis *)

Section MockSentiment.

Import AzureLanguageSentiment Variants.

Lemma counts_loop (ws : list string) :
  forall (i positiveCount negativeCount : nat),
    forEachFrom i
      (fun (count : nat * nat) word (_ : nat) =>
         let (positiveCount, negativeCount) := count in
         let positiveCount :=
           if existsb (fun pw => includes word pw) positiveWords
           then positiveCount + 1 else positiveCount in
         let negativeCount :=
           if existsb (fun nw => includes word nw) negativeWords
           then negativeCount + 1 else negativeCount in
         (positiveCount, negativeCount))
      ws (positiveCount, negativeCount)
    = (positiveCount
       + List.length (filter (fun word => existsb (fun term => includes word term)
                                                  positiveWords) ws),
       negativeCount
       + List.length (filter (fun word => existsb (fun term => includes word term)
                                                  negativeWords) ws)).
Proof.
  induction ws as [|word ws IH]; intros i p n; cbn [forEachFrom filter].
  - cbn [List.length]. f_equal; lia.
  - rewrite IH.
    destruct (existsb _ positiveWords), (existsb _ negativeWords);
      cbn [List.length]; f_equal; lia.
Qed.

(** X21.  The mock analysis counts the words of the lowercased text that
    hold a positive term and those that hold a negative term, a word once on
    each side whatever the number of terms in it.  Its label is neutral
    exactly when no word holds a term of either list, and mixed only when
    both counts are positive and neither is more than twice the other. *)
Theorem X21_mock_sentiment_label :
  forall text : string,
    counts text = (List.length (wordsWith positiveWords text),
                   List.length (wordsWith negativeWords text))
    /\ (sentiment text = neutral
        <-> wordsWith positiveWords text = [] /\ wordsWith negativeWords text = [])
    /\ (sentiment text = mixed
        <-> 0 < List.length (wordsWith positiveWords text)
            /\ 0 < List.length (wordsWith negativeWords text)
            /\ List.length (wordsWith positiveWords text)
               <= 2 * List.length (wordsWith negativeWords text)
            /\ List.length (wordsWith negativeWords text)
               <= 2 * List.length (wordsWith positiveWords text)).
Proof.
  intro text.
  assert (Hcounts : counts text = (List.length (wordsWith positiveWords text),
                                   List.length (wordsWith negativeWords text))).
  { unfold counts, forEach. rewrite counts_loop. reflexivity. }
  split; [exact Hcounts|].
  unfold sentiment. rewrite Hcounts.
  rewrite <- !length_zero_iff_nil.
  set (p := List.length (wordsWith positiveWords text)).
  set (n := List.length (wordsWith negativeWords text)).
  destruct (n * 2 <? p) eqn:H1; [apply Nat.ltb_lt in H1 | apply Nat.ltb_ge in H1].
  - split; (split; [discriminate | lia]).
  - destruct (p * 2 <? n) eqn:H2; [apply Nat.ltb_lt in H2 | apply Nat.ltb_ge in H2].
    + split; (split; [discriminate | lia]).
    + destruct (0 <? p) eqn:H3; [apply Nat.ltb_lt in H3 | apply Nat.ltb_ge in H3];
        (destruct (0 <? n) eqn:H4; [apply Nat.ltb_lt in H4 | apply Nat.ltb_ge in H4]);
        cbn [andb]; split; (split; [try discriminate; try reflexivity; lia
                                   | try reflexivity; lia]).
Qed.

(** A text without any term of the lists. *)
Lemma X21_mock_sentiment_label_witness :
  sentiment "the report is due on Monday" = neutral.
Proof.
  apply (proj1 (proj2 (X21_mock_sentiment_label "the report is due on Monday"))).
  split; vm_compute; reflexivity.
Defined.

End MockSentiment.
